(** * config_manager: named experiment configurations and result summaries

    A shallow embedding of [src/config_manager.py].

    - [Json]: the values the module serialises, and [json.dumps] with
      [sort_keys], the canonical text a configuration is hashed from.
    - [MD5]: [hashlib.md5(...).hexdigest()], executable.
    - [Store]: the JSON store file and the four operations on it.
    - [Loader]: [load_experiment_results], the directory scan and the
      numeric sort of the run files.
    - [Summary]: [get_experiment_summary], over exact real arithmetic. *)

From Stdlib Require Import ZArith List String Ascii Lia Bool.
From Stdlib Require Import Sorting.Sorted Sorting.Permutation.
From Stdlib Require DecimalString.
From Stdlib Require DecimalPos DecimalZ.
From Stdlib Require Import Reals Lra.
From stdpp Require Import base tactics option list sorting gmap strings.

Set Warnings "-register-all".
Local Open Scope Z_scope.

(** ** Text helpers shared by the serialiser, the digest and the loader *)

Module Text.

(** One lower-case hexadecimal digit, as Python's [%x] prints it. *)
Definition hex_digit (n : Z) : ascii :=
  match n with
  | 0 => "0" | 1 => "1" | 2 => "2" | 3 => "3" | 4 => "4" | 5 => "5"
  | 6 => "6" | 7 => "7" | 8 => "8" | 9 => "9" | 10 => "a" | 11 => "b"
  | 12 => "c" | 13 => "d" | 14 => "e" | _ => "f"
  end%char.

(** Two hexadecimal digits of a byte, high nibble first. *)
Definition hex_byte (b : Z) : string :=
  String (hex_digit (Z.shiftr b 4 mod 16)) (String (hex_digit (b mod 16)) EmptyString).

Definition code (c : ascii) : Z := Z.of_N (N_of_ascii c).

(** [sep.join(parts)] *)
Fixpoint join (sep : string) (parts : list string) : string :=
  match parts with
  | [] => EmptyString
  | [p] => p
  | p :: rest => p +:+ sep +:+ join sep rest
  end.

(** [str(n)] for a Python [int]. *)
Definition str_of_Z (n : Z) : string :=
  DecimalString.NilZero.string_of_int (Z.to_int n).

End Text.

(** ** JSON values and [json.dumps] *)

Module Json.
Import Text.

(** The values [json.dumps] accepts, restricted to string keys (the
    only keys the module builds).  A dict keeps its insertion order, as
    a Python dict does, so it is an association list.  A float is
    carried as the text [float.__repr__] gives for it (the shortest
    text that reads back as the same float), which is the text
    [json.dumps] emits. *)
Inductive json : Type :=
| JNull
| JBool (b : bool)
| JInt (n : Z)
| JFloat (repr : string)
| JStr (s : string)
| JList (xs : list json)
| JDict (items : list (string * json)).

Definition dquote : ascii := "034"%char.
Definition backslash : ascii := "092"%char.

(** [ESCAPE_ASCII] replacement of one character ([ensure_ascii=True]). *)
Definition escape_char (c : ascii) : string :=
  let n := code c in
  if (n =? 34) || (n =? 92) then String backslash (String c EmptyString)
  else if n =? 10 then "\n"
  else if n =? 13 then "\r"
  else if n =? 9 then "\t"
  else if n =? 8 then "\b"
  else if n =? 12 then "\f"
  else if (32 <=? n) && (n <=? 126) then String c EmptyString
  else "\u00" +:+ hex_byte n.

Fixpoint escape (s : string) : string :=
  match s with
  | EmptyString => EmptyString
  | String c rest => escape_char c +:+ escape rest
  end.

(** [encode_basestring_ascii] *)
Definition encode_string (s : string) : string :=
  String dquote (escape s +:+ String dquote EmptyString).

(** Stable insertion of an item by key: [sorted(dct.items())] compares
    the (key, value) pairs, and the keys of a dict are distinct, so the
    key alone decides. *)
Fixpoint insert_item {V} (kv : string * V) (l : list (string * V))
  : list (string * V) :=
  match l with
  | [] => [kv]
  | kv' :: rest =>
      if String.leb (fst kv) (fst kv') then kv :: l
      else kv' :: insert_item kv rest
  end.

Definition sort_items {V} (l : list (string * V)) : list (string * V) :=
  foldr insert_item [] l.

Definition render_item (kv : string * string) : string :=
  encode_string (fst kv) +:+ ": " +:+ snd kv.

(** [json.dumps(j, sort_keys=sort_keys)] with the default separators
    [", "] and [": "] and no indentation.  The values of a dict are
    rendered before its items are put in key order, the encoder does it
    after; [dumps_dict_sorted_first] shows that the two agree.  Every
    value has a text here: the limits of the interpreter, under which
    [json.dumps] raises for an int of more digits than it converts to
    text (4300 unless set otherwise, from CPython 3.11 on) and for a value
    nested deeper than its recursion limit, are not part of [dumps]. *)
Fixpoint dumps (sort_keys : bool) (j : json) : string :=
  match j with
  | JNull => "null"
  | JBool true => "true"
  | JBool false => "false"
  | JInt n => str_of_Z n
  | JFloat repr => repr
  | JStr s => encode_string s
  | JList xs => "[" +:+ join ", " (List.map (dumps sort_keys) xs) +:+ "]"
  | JDict items =>
      let rendered :=
        List.map (fun kv => let '(k, v) := kv in (k, dumps sort_keys v)) items in
      let ordered := if sort_keys then sort_items rendered else rendered in
      "{" +:+ join ", " (List.map render_item ordered) +:+ "}"
  end.

(** [d.get(k)] on the items of a dict. *)
Fixpoint lookup_item {V} (k : string) (l : list (string * V)) : option V :=
  match l with
  | [] => None
  | (k', v) :: rest => if String.eqb k' k then Some v else lookup_item k rest
  end.

(** Equality of two values field by field: lists item by item, dicts as
    Python compares them, by their length and then key by key whatever
    the insertion order.  Numbers are equal when they are the same
    number of the same kind ([1] and [1.0] are told apart, as their
    JSON texts are). *)
Fixpoint json_eqb (a b : json) : bool :=
  match a, b with
  | JNull, JNull => true
  | JBool x, JBool y => Bool.eqb x y
  | JInt x, JInt y => x =? y
  | JFloat x, JFloat y => String.eqb x y
  | JStr x, JStr y => String.eqb x y
  | JList xs, JList ys =>
      (fix items_eqb (xs ys : list json) : bool :=
         match xs, ys with
         | [], [] => true
         | x :: xs', y :: ys' => json_eqb x y && items_eqb xs' ys'
         | _, _ => false
         end) xs ys
  | JDict xs, JDict ys =>
      (List.length xs =? List.length ys)%nat
      && (fix keys_eqb (xs : list (string * json)) : bool :=
            match xs with
            | [] => true
            | (k, v) :: xs' =>
                match lookup_item k ys with
                | Some v' => json_eqb v v'
                | None => false
                end && keys_eqb xs'
            end) xs
  | _, _ => false
  end.

(** A value Python can hold: the keys of every dict are distinct. *)
Fixpoint well_formed (j : json) : Prop :=
  match j with
  | JList xs =>
      (fix all (xs : list json) : Prop :=
         match xs with
         | [] => True
         | x :: xs' => well_formed x /\ all xs'
         end) xs
  | JDict items =>
      NoDup (List.map fst items)
      /\ (fix all (items : list (string * json)) : Prop :=
            match items with
            | [] => True
            | (_, v) :: items' => well_formed v /\ all items'
            end) items
  | _ => True
  end.

(** The order [sort_items] puts the items in. *)
Definition key_le {V} (a b : string * V) : Prop :=
  String.leb (fst a) (fst b) = true.

(** The items of a dict with their values rendered. *)
Definition rendered (sort_keys : bool) (items : list (string * json))
  : list (string * string) :=
  List.map (fun kv => (fst kv, dumps sort_keys (snd kv))) items.

(** Induction over a value with the hypotheses for the items of a list
    and for the values of a dict. *)
Section nested_induction.
Variable P : json -> Prop.
Hypothesis Hnull : P JNull.
Hypothesis Hbool : forall b, P (JBool b).
Hypothesis Hint : forall n, P (JInt n).
Hypothesis Hfloat : forall r, P (JFloat r).
Hypothesis Hstr : forall s, P (JStr s).
Hypothesis Hlist : forall xs, Forall P xs -> P (JList xs).
Hypothesis Hdict : forall items, Forall (fun kv => P (snd kv)) items -> P (JDict items).

Fixpoint json_nested_ind (j : json) : P j :=
  match j with
  | JNull => Hnull
  | JBool b => Hbool b
  | JInt n => Hint n
  | JFloat r => Hfloat r
  | JStr s => Hstr s
  | JList xs =>
      Hlist xs
        ((fix go (l : list json) : Forall P l :=
            match l with
            | [] => @List.Forall_nil _ P
            | x :: l' => @List.Forall_cons _ P x l' (json_nested_ind x) (go l')
            end) xs)
  | JDict items =>
      Hdict items
        ((fix go (l : list (string * json)) : Forall (fun kv => P (snd kv)) l :=
            match l with
            | [] => @List.Forall_nil _ _
            | kv :: l' =>
                @List.Forall_cons _ (fun kv => P (snd kv)) kv l'
                  (json_nested_ind (snd kv)) (go l')
            end) items)
  end.
End nested_induction.

End Json.

(** ** [hashlib.md5] *)

Module MD5.
Import Text.

Definition add32 (x y : Z) : Z := (x + y) mod 2 ^ 32.
Definition not32 (x : Z) : Z := Z.lxor x 0xffffffff.
Definition rotl32 (x c : Z) : Z :=
  Z.lor (Z.shiftl x c mod 2 ^ 32) (Z.shiftr x (32 - c)).

(** Per-round shift amounts. *)
Definition shifts : list Z :=
  [7; 12; 17; 22; 7; 12; 17; 22; 7; 12; 17; 22; 7; 12; 17; 22;
   5; 9; 14; 20; 5; 9; 14; 20; 5; 9; 14; 20; 5; 9; 14; 20;
   4; 11; 16; 23; 4; 11; 16; 23; 4; 11; 16; 23; 4; 11; 16; 23;
   6; 10; 15; 21; 6; 10; 15; 21; 6; 10; 15; 21; 6; 10; 15; 21].

(** [floor(2^32 * abs(sin(i + 1)))] for [i] from 0 to 63. *)
Definition sines : list Z :=
  [0xd76aa478; 0xe8c7b756; 0x242070db; 0xc1bdceee;
   0xf57c0faf; 0x4787c62a; 0xa8304613; 0xfd469501;
   0x698098d8; 0x8b44f7af; 0xffff5bb1; 0x895cd7be;
   0x6b901122; 0xfd987193; 0xa679438e; 0x49b40821;
   0xf61e2562; 0xc040b340; 0x265e5a51; 0xe9b6c7aa;
   0xd62f105d; 0x02441453; 0xd8a1e681; 0xe7d3fbc8;
   0x21e1cde6; 0xc33707d6; 0xf4d50d87; 0x455a14ed;
   0xa9e3e905; 0xfcefa3f8; 0x676f02d9; 0x8d2a4c8a;
   0xfffa3942; 0x8771f681; 0x6d9d6122; 0xfde5380c;
   0xa4beea44; 0x4bdecfa9; 0xf6bb4b60; 0xbebfbc70;
   0x289b7ec6; 0xeaa127fa; 0xd4ef3085; 0x04881d05;
   0xd9d4d039; 0xe6db99e5; 0x1fa27cf8; 0xc4ac5665;
   0xf4292244; 0x432aff97; 0xab9423a7; 0xfc93a039;
   0x655b59c3; 0x8f0ccc92; 0xffeff47d; 0x85845dd1;
   0x6fa87e4f; 0xfe2ce6e0; 0xa3014314; 0x4e0811a1;
   0xf7537e82; 0xbd3af235; 0x2ad7d2bb; 0xeb86d391].

Definition bytes_of_string (s : string) : list Z :=
  List.map code (list_ascii_of_string s).

(** [n] as [k] little-endian bytes. *)
Fixpoint le_bytes (k : nat) (n : Z) : list Z :=
  match k with
  | O => []
  | S k' => n mod 256 :: le_bytes k' (Z.shiftr n 8)
  end.

Fixpoint le_word (bs : list Z) : Z :=
  match bs with
  | [] => 0
  | b :: rest => b + 256 * le_word rest
  end.

(** The message, one [0x80] byte, zero bytes up to 56 modulo 64, and
    the bit length on 64 bits. *)
Definition pad (msg : list Z) : list Z :=
  let len := Z.of_nat (List.length msg) in
  msg ++ [0x80] ++ List.repeat 0 (Z.to_nat ((55 - len) mod 64))
      ++ le_bytes 8 ((8 * len) mod 2 ^ 64).

(** Cut a list into blocks of [n] items; [fuel] bounds the number of
    blocks. *)
Fixpoint blocks {A} (fuel n : nat) (l : list A) : list (list A) :=
  match fuel, l with
  | O, _ | _, [] => []
  | S fuel', _ => firstn n l :: blocks fuel' n (skipn n l)
  end.

Definition words_of_chunk (chunk : list Z) : list Z :=
  List.map le_word (blocks 16 4 chunk).

Definition state : Type := Z * Z * Z * Z.

Definition round (M : list Z) (st : state) (i : Z) : state :=
  let '(A, B, C, D) := st in
  let '(F, g) :=
    if i <? 16 then (Z.lor (Z.land B C) (Z.land (not32 B) D), i)
    else if i <? 32 then
      (Z.lor (Z.land D B) (Z.land (not32 D) C), (5 * i + 1) mod 16)
    else if i <? 48 then (Z.lxor (Z.lxor B C) D, (3 * i + 5) mod 16)
    else (Z.lxor C (Z.lor B (not32 D)), (7 * i) mod 16) in
  let F' :=
    add32 (add32 (add32 F A) (nth (Z.to_nat i) sines 0))
          (nth (Z.to_nat g) M 0) in
  (D, add32 B (rotl32 F' (nth (Z.to_nat i) shifts 0)), B, C).

Definition process_chunk (st : state) (chunk : list Z) : state :=
  let M := words_of_chunk chunk in
  let '(a0, b0, c0, d0) := st in
  let '(A, B, C, D) :=
    fold_left (round M) (List.map Z.of_nat (seq 0 64)) st in
  (add32 a0 A, add32 b0 B, add32 c0 C, add32 d0 D).

Definition init : state := (0x67452301, 0xefcdab89, 0x98badcfe, 0x10325476).

Definition digest (msg : list Z) : list Z :=
  let padded := pad msg in
  let '(a, b, c, d) :=
    fold_left process_chunk
      (blocks (List.length padded) 64 padded) init in
  le_bytes 4 a ++ le_bytes 4 b ++ le_bytes 4 c ++ le_bytes 4 d.

(** [hashlib.md5(s.encode()).hexdigest()] for an ASCII [s]. *)
Definition hexdigest (s : string) : string :=
  fold_right (fun b acc => hex_byte b +:+ acc) EmptyString (digest (bytes_of_string s)).

End MD5.

(** ** Python outcomes: a value returned or an exception raised *)

Module Py.

Inductive exn : Type :=
| ValueError (msg : string)
| FileNotFoundError (msg : string)
| KeyError (msg : string)
| IndexError (msg : string)
| ZeroDivisionError (msg : string).

Inductive outcome (A : Type) : Type :=
| Returned (a : A)
| Raised (e : exn).
Arguments Returned {A} a.
Arguments Raised {A} e.

Definition bind {A B} (k : A -> outcome B) (m : outcome A) : outcome B :=
  match m with
  | Returned a => k a
  | Raised e => Raised e
  end.

(** [x ← m; k] runs [m] and, unless it raised, goes on with [k]. *)
#[global] Instance outcome_bind : MBind outcome := @bind.

(** Run [f] on each item from left to right; the first exception stops
    the loop. *)
Fixpoint for_each {A B} (f : A -> outcome B) (l : list A) : outcome (list B) :=
  match l with
  | [] => Returned []
  | x :: rest =>
      y ← f x; ys ← for_each f rest; Returned (y :: ys)
  end.

(** A loop that threads an accumulator through [f]. *)
Fixpoint fold_each {A S} (f : S -> A -> outcome S) (l : list A) (s : S)
  : outcome S :=
  match l with
  | [] => Returned s
  | x :: rest => s' ← f s x; fold_each f rest s'
  end.

Definition is_returned {A} (m : outcome A) : Prop :=
  match m with Returned _ => True | Raised _ => False end.

End Py.

(** ** The configuration store *)

Module Store.
Import Json Py.

(** The six arguments a configuration is built from.  Python checks
    none of their types, so each is any JSON value; the callers'
    defaults are [low_key="0-85"], [high_key="85-100"], [T=365*10]. *)
Record Configuration : Type := {
  rates_cpra : json;
  xeno_rates_base : json;
  xeno_proportion : json;
  low_key : json;
  high_key : json;
  T : json
}.

(** The [config] dict, in the insertion order of the source. *)
Definition config_dict (c : Configuration) : json :=
  JDict [("rates_cpra", rates_cpra c);
         ("xeno_rates_base", xeno_rates_base c);
         ("xeno_proportion", xeno_proportion c);
         ("low_key", low_key c);
         ("high_key", high_key c);
         ("T", T c)].

(** [hashlib.md5(json.dumps(config, sort_keys=True).encode()).hexdigest()] *)
Definition hash_of (config : json) : string :=
  MD5.hexdigest (dumps true config).

(** The content of a store file. *)
Record Data : Type := {
  name_to_config : gmap string json;
  config_to_name : gmap string string
}.

Definition empty_data : Data :=
  {| name_to_config := ∅; config_to_name := ∅ |}.

(** The store files by path, and the log of the [json.dump] calls made
    so far (a write of an unchanged content is still a write).  The
    [print] calls of the source go to the standard output only and are
    left out. *)
Record World : Type := {
  files : gmap string Data;
  write_log : list (string * Data)
}.

(** Two configurations equal field by field. *)
Definition config_eqb (c1 c2 : Configuration) : bool :=
  json_eqb (rates_cpra c1) (rates_cpra c2)
  && json_eqb (xeno_rates_base c1) (xeno_rates_base c2)
  && json_eqb (xeno_proportion c1) (xeno_proportion c2)
  && json_eqb (low_key c1) (low_key c2)
  && json_eqb (high_key c1) (high_key c2)
  && json_eqb (T c1) (T c2).

Definition config_well_formed (c : Configuration) : Prop :=
  well_formed (rates_cpra c) /\ well_formed (xeno_rates_base c)
  /\ well_formed (xeno_proportion c) /\ well_formed (low_key c)
  /\ well_formed (high_key c) /\ well_formed (T c).

Definition empty_world : World := {| files := ∅; write_log := [] |}.

(** [with open(config_file, 'w') as f: json.dump(data, f, indent=2)] *)
Definition save (config_file : string) (data : Data) (w : World) : World :=
  {| files := <[config_file := data]> (files w);
     write_log := write_log w ++ [(config_file, data)] |}.

(** Load existing configurations or start from the empty mappings. *)
Definition load_or_new (config_file : string) (w : World) : Data :=
  match files w !! config_file with
  | Some data => data
  | None => empty_data
  end.

(** [f"exp_{uuid.uuid4().hex[:8]}"], [uuid_hex] being the 32 hexadecimal
    digits of the identifier drawn. *)
Definition random_name (uuid_hex : string) : string :=
  "exp_" +:+ substring 0 8 uuid_hex.

Definition resolve_name (name : option string) (uuid_hex : string) : string :=
  match name with
  | Some n => n
  | None => random_name uuid_hex
  end.

Definition name_conflict_message (name : string) : string :=
  "Name '" +:+ name
    +:+ "' already exists. Please choose a different name or set overwrite=True.".

(** "Update the mappings" and "Save to file". *)
Definition update_and_save (config : json) (config_hash name config_file : string)
    (n2c : gmap string json) (c2n : gmap string string) (w : World)
  : outcome string * World :=
  let data' := {| name_to_config := <[name := config]> n2c;
                  config_to_name := <[config_hash := name]> c2n |} in
  (Returned name, save config_file data' w).

(** "Case 2: Name exists" and what follows it. *)
Definition name_case (config : json) (config_hash name config_file : string)
    (overwrite : bool) (data : Data) (w : World) : outcome string * World :=
  match name_to_config data !! name with
  | Some existing_config =>
      let existing_config_hash := hash_of existing_config in
      if decide (existing_config_hash = config_hash) then (Returned name, w)
      else if negb overwrite then
        (Raised (ValueError (name_conflict_message name)), w)
      else
        let c2n :=
          match config_to_name data !! existing_config_hash with
          | Some n =>
              if decide (n = name)
              then delete existing_config_hash (config_to_name data)
              else config_to_name data
          | None => config_to_name data
          end in
        update_and_save config config_hash name config_file
          (name_to_config data) c2n w
  | None =>
      update_and_save config config_hash name config_file
        (name_to_config data) (config_to_name data) w
  end.

(** The call as the source writes it: it returns a name, or ends by the
    [raise] of the name conflict.  What can fail below the source is left
    out: [json.dumps] and [json.load] under the limits of the interpreter
    (see [dumps]), and [open] on a path that cannot be read or written. *)
Definition manage_experiment_config (c : Configuration) (name : option string)
    (config_file : string) (overwrite : bool) (uuid_hex : string) (w : World)
  : outcome string * World :=
  let config := config_dict c in
  let config_hash := hash_of config in
  let data := load_or_new config_file w in
  let name := resolve_name name uuid_hex in
  match config_to_name data !! config_hash with
  | Some existing_name =>
      if decide (existing_name = name) then (Returned name, w)
      else if negb overwrite then (Returned existing_name, w)
      else name_case config config_hash name config_file overwrite data w
  | None => name_case config config_hash name config_file overwrite data w
  end.

(** Every name [config_to_name] points at is a key of [name_to_config]. *)
Definition names_bound (data : Data) : Prop :=
  forall config_hash name,
    config_to_name data !! config_hash = Some name ->
    is_Some (name_to_config data !! name).

Definition get_config_by_name (name config_file : string) (w : World)
  : outcome json :=
  match files w !! config_file with
  | None =>
      Raised (FileNotFoundError
                ("Configuration file " +:+ config_file +:+ " not found."))
  | Some data =>
      match name_to_config data !! name with
      | None =>
          Raised (KeyError
                    ("Configuration with name '" +:+ name +:+ "' not found."))
      | Some config => Returned config
      end
  end.

(** [None] is Python's [None]. *)
Definition get_name_by_config (c : Configuration) (config_file : string)
    (w : World) : option string :=
  let config_hash := hash_of (config_dict c) in
  match files w !! config_file with
  | None => None
  | Some data => config_to_name data !! config_hash
  end.

Definition list_all_configs (config_file : string) (w : World)
  : gmap string json :=
  match files w !! config_file with
  | None => ∅
  | Some data => name_to_config data
  end.

End Store.

(** ** Loading the result files of a configuration *)

Module Loader.
Import Py.

Definition startswith (s pre : string) : bool := String.prefix pre s.

Definition endswith (s suf : string) : bool :=
  let n := String.length s in
  let m := String.length suf in
  (m <=? n)%nat && String.eqb (substring (n - m) m s) suf.

(** [s.split(sep)] for a one-character separator: never empty. *)
Fixpoint split (sep : ascii) (s : string) : list string :=
  match s with
  | EmptyString => [EmptyString]
  | String c rest =>
      if Ascii.eqb c sep then EmptyString :: split sep rest
      else match split sep rest with
           | [] => [String c EmptyString]
           | part :: parts => String c part :: parts
           end
  end.

(** [parts[-1]] and [parts[0]] of a list that [split] returned. *)
Definition last_part (parts : list string) : string :=
  List.last parts EmptyString.
Definition first_part (parts : list string) : string :=
  List.hd EmptyString parts.

(** The white space [int] strips from a text: the ASCII white space
    and, among the code points from 128 to 255, NEL and the no-break
    space. *)
Definition is_space (c : ascii) : bool :=
  let n := Text.code c in
  ((9 <=? n) && (n <=? 13)) || (n =? 32) || (n =? 133) || (n =? 160).

Fixpoint lstrip (s : string) : string :=
  match s with
  | String c rest => if is_space c then lstrip rest else s
  | EmptyString => EmptyString
  end.

Fixpoint rstrip (s : string) : string :=
  match s with
  | String c rest =>
      match rstrip rest with
      | EmptyString => if is_space c then EmptyString else String c EmptyString
      | rest' => String c rest'
      end
  | EmptyString => EmptyString
  end.

Definition digit_value (c : ascii) : option Z :=
  let n := Text.code c in
  if (48 <=? n) && (n <=? 57) then Some (n - 48) else None.

(** The value of a run of decimal digits, [None] at the first other
    character. *)
Fixpoint digits_value (acc : Z) (s : string) : option Z :=
  match s with
  | EmptyString => Some acc
  | String c rest =>
      match digit_value c with
      | Some d => digits_value (10 * acc + d) rest
      | None => None
      end
  end.

Fixpoint has_char (c : ascii) (s : string) : bool :=
  match s with
  | EmptyString => false
  | String x rest => Ascii.eqb x c || has_char c rest
  end.

Definition apostrophe : ascii := "039"%char.

(** The code points below 256 that [repr] prints as they are: the
    printable ASCII characters and, from 128 on, all but the controls, the
    no-break space and the soft hyphen. *)
Definition is_printable (n : Z) : bool :=
  ((32 <=? n) && (n <? 127)) || ((161 <=? n) && negb (n =? 173)).

(** One character of [repr(s)] between the quotes [q]. *)
Definition repr_char (q c : ascii) : string :=
  let n := Text.code c in
  if Ascii.eqb c q || Ascii.eqb c Json.backslash
  then String Json.backslash (String c EmptyString)
  else if n =? 9 then "\t"
  else if n =? 10 then "\n"
  else if n =? 13 then "\r"
  else if is_printable n then String c EmptyString
  else "\x" +:+ Text.hex_byte n.

Fixpoint repr_body (q : ascii) (s : string) : string :=
  match s with
  | EmptyString => EmptyString
  | String c rest => repr_char q c +:+ repr_body q rest
  end.

(** [repr(s)] for a text of code points below 256: between apostrophes,
    or between double quotes when the text has an apostrophe and no double
    quote. *)
Definition py_repr (s : string) : string :=
  let q := if has_char apostrophe s && negb (has_char Json.dquote s)
           then Json.dquote else apostrophe in
  String q (repr_body q s +:+ String q EmptyString).

(** The exception of [int(s)]: the message ends with the first 200
    characters of [repr(s)]. *)
Definition invalid_literal (s : string) : exn :=
  ValueError ("invalid literal for int() with base 10: "
              +:+ substring 0 200 (py_repr s)).

(** [int(s)] for a text of code points below 256 without underscore (a
    part of [split("_")] has none): white space around, an optional
    sign, at least one decimal digit. *)
Definition py_int (s : string) : outcome Z :=
  let body := rstrip (lstrip s) in
  let '(negative, digits) :=
    match body with
    | String c rest =>
        if Ascii.eqb c "-" then (true, rest)
        else if Ascii.eqb c "+" then (false, rest)
        else (false, body)
    | EmptyString => (false, body)
    end in
  match digits with
  | EmptyString => Raised (invalid_literal s)
  | _ =>
      match digits_value 0 digits with
      | Some n => Returned (if negative then - n else n)
      | None => Raised (invalid_literal s)
      end
  end.

(** [x.split("_")[-1].split(".")[0]] *)
Definition index_text (filename : string) : string :=
  first_part (split "." (last_part (split "_" filename))).

(** The sort key [lambda x: int(x.split("_")[-1].split(".")[0])]. *)
Definition run_index (filename : string) : outcome Z :=
  py_int (index_text filename).

(** Stable insertion by key, smallest first. *)
Fixpoint insert_keyed {X} (kx : Z * X) (l : list (Z * X)) : list (Z * X) :=
  match l with
  | [] => [kx]
  | ky :: rest =>
      if fst kx <=? fst ky then kx :: l else ky :: insert_keyed kx rest
  end.

(** [l.sort(key=key)]: the key of every item is computed first, from
    left to right, and an exception there leaves the sort; the sort
    itself is stable. *)
Definition sort_by_key {X} (key : X -> outcome Z) (l : list X)
  : outcome (list X) :=
  keyed ← for_each (fun x => k ← key x; Returned (k, x)) l;
  Returned (List.map snd (foldr insert_keyed [] keyed)).

(** [os.path.join(a, b)] on POSIX paths. *)
Definition path_join (a b : string) : string :=
  if startswith b "/" then b
  else if String.eqb a EmptyString || endswith a "/" then a +:+ b
  else a +:+ "/" +:+ b.

Definition is_result_file (config_name filename : string) : bool :=
  startswith filename (config_name +:+ "_") && endswith filename ".pkl".

Definition resolve_folder (config_name : string)
    (experiment_folder : option string) (base_folder : string) : string :=
  match experiment_folder with
  | Some f => f
  | None => path_join base_folder config_name
  end.

(** [disk] maps the path of a folder to the names [os.listdir] gives for
    it, in the order it gives them, each with the object that its file
    unpickles to. *)
Definition load_experiment_results {A} (config_name : string)
    (experiment_folder : option string) (base_folder : string)
    (disk : gmap string (list (string * A))) : outcome (list A) :=
  let experiment_folder :=
    resolve_folder config_name experiment_folder base_folder in
  match disk !! experiment_folder with
  | None =>
      Raised (FileNotFoundError
                ("Experiment folder " +:+ experiment_folder +:+ " not found."))
  | Some entries =>
      let experiment_files :=
        List.filter (fun e => is_result_file config_name (fst e)) entries in
      sorted ← sort_by_key (fun e => run_index (fst e)) experiment_files;
      Returned (List.map snd sorted)
  end.

(** The result files of a folder, in listing order. *)
Definition result_files {A} (config_name : string) (entries : list (string * A))
  : list (string * A) :=
  List.filter (fun e => is_result_file config_name (fst e)) entries.

(** The run index of a file whose name has one. *)
Definition index_of (filename : string) : Z :=
  match run_index filename with
  | Returned n => n
  | Raised _ => 0
  end.

Definition index_le {A} (e1 e2 : string * A) : Prop :=
  index_of (fst e1) <= index_of (fst e2).

(** The order [insert_keyed] keeps. *)
Definition keyed_le {X} (a b : Z * X) : Prop := fst a <= fst b.

End Loader.

(** ** Summary statistics of the runs of a configuration *)

Module Summary.
Import Py Loader.
Local Open Scope R_scope.

(** The tuple [run_system] returns, in its positional order.  A series
    holds real numbers; an object that is not a tuple of twelve series
    is left out by the type. *)
Record ExperimentResult : Type := {
  C_low : list R;
  C_high : list R;
  xeno_used : list R;
  waitlist_deaths_low : list R;
  waitlist_deaths_high : list R;
  post_tx_deaths_low : list R;
  post_tx_deaths_high : list R;
  total_deaths : list R;
  H_low : list R;
  H_high_std : list R;
  H_high_xeno : list R;
  times : list R
}.

(** [series[-1]] *)
Definition final (series : list R) : outcome R :=
  match series with
  | [] => Raised (IndexError "list index out of range")
  | x :: rest => Returned (List.last rest x)
  end.

(** A Python dict with string keys, in insertion order. *)
Fixpoint dict_get {V} (key : string) (d : list (string * V)) : outcome V :=
  match d with
  | [] => Raised (KeyError key)
  | (k, v) :: rest => if String.eqb k key then Returned v else dict_get key rest
  end.

(** [d[key] = v]: a key already there keeps its place. *)
Fixpoint dict_set {V} (key : string) (v : V) (d : list (string * V))
  : list (string * V) :=
  match d with
  | [] => [(key, v)]
  | (k, v') :: rest =>
      if String.eqb k key then (k, v) :: rest
      else (k, v') :: dict_set key v rest
  end.

(** The dict appended to [final_values] for one experiment. *)
Definition final_values_of (exp : ExperimentResult)
  : outcome (list (string * R)) :=
  v1 ← final (C_low exp);
  v2 ← final (C_high exp);
  v3 ← final (waitlist_deaths_low exp);
  v4 ← final (waitlist_deaths_high exp);
  v5 ← final (post_tx_deaths_low exp);
  v6 ← final (post_tx_deaths_high exp);
  v7 ← final (total_deaths exp);
  v8 ← final (xeno_used exp);
  v9 ← final (H_low exp);
  v10 ← final (H_high_std exp);
  v11 ← final (H_high_xeno exp);
  v12 ← final (times exp);
  Returned
    (dict_set "simulation_time" v12
    (dict_set "final_recipients_high_xeno" v11
    (dict_set "final_recipients_high_std" v10
    (dict_set "final_recipients_low" v9
    (dict_set "total_xeno_used" v8
    (dict_set "total_deaths" v7
    (dict_set "total_post_tx_deaths_high" v6
    (dict_set "total_post_tx_deaths_low" v5
    (dict_set "total_waitlist_deaths_high" v4
    (dict_set "total_waitlist_deaths_low" v3
    (dict_set "final_waitlist_high" v2
    (dict_set "final_waitlist_low" v1 [])))))))))))).

Record Stats : Type := {
  mean : R;
  std : R;
  min : R;
  max : R;
  values : list R
}.

(** A value of the summary dict: the statistics of a metric, or the
    number under [num_experiments]. *)
Inductive entry : Type :=
| Metric (s : Stats)
| Count (n : nat).

(** [sum(xs)]: from 0, left to right. *)
Definition py_sum (xs : list R) : R := fold_left Rplus xs 0.

(** [min] and [max] of a sequence with first item [x]. *)
Definition py_min (x : R) (rest : list R) : R :=
  fold_left (fun m y => if Rlt_dec y m then y else m) rest x.
Definition py_max (x : R) (rest : list R) : R :=
  fold_left (fun m y => if Rgt_dec y m then y else m) rest x.

(** The dict stored under one key of the summary, for the values [x]
    and then [rest].  [** 0.5] of a number that is not negative is its
    square root. *)
Definition statistics (x : R) (rest : list R) : Stats :=
  let values := x :: rest in
  let n := INR (List.length values) in
  {| mean := py_sum values / n;
     std := sqrt (py_sum (List.map (fun x => (x - py_sum values / n) ^ 2)
                                   values) / n);
     min := py_min x rest;
     max := py_max x rest;
     values := values |}.

(** With no value, the division of the mean is the first to fail. *)
Definition stats_of (values : list R) : outcome Stats :=
  match values with
  | [] => Raised (ZeroDivisionError "division by zero")
  | x :: rest => Returned (statistics x rest)
  end.

(** One turn of the loop [for key in final_values[0].keys()]. *)
Definition summarise_key (final_values : list (list (string * R)))
    (summary : list (string * entry)) (key : string)
  : outcome (list (string * entry)) :=
  values ← for_each (dict_get key) final_values;
  stats ← stats_of values;
  Returned (dict_set key (Metric stats) summary).

(** What [get_experiment_summary] does with the experiments it has
    loaded. *)
Definition summarise (experiments : list ExperimentResult)
  : outcome (list (string * entry)) :=
  match experiments with
  | [] => Returned []
  | _ =>
      final_values ← for_each final_values_of experiments;
      keys ←
        match final_values with
        | first :: _ => Returned (List.map fst first)
        | [] => Raised (IndexError "list index out of range")
        end;
      summary ← fold_each (summarise_key final_values) keys [];
      Returned
        (dict_set "num_experiments" (Count (List.length experiments)) summary)
  end.

Definition get_experiment_summary (config_name : string)
    (experiment_folder : option string) (base_folder : string)
    (disk : gmap string (list (string * ExperimentResult)))
  : outcome (list (string * entry)) :=
  experiments ←
    load_experiment_results config_name experiment_folder base_folder disk;
  summarise experiments.

(** The keys of [final_values], in insertion order. *)
Definition metric_names : list string :=
  ["final_waitlist_low"; "final_waitlist_high";
   "total_waitlist_deaths_low"; "total_waitlist_deaths_high";
   "total_post_tx_deaths_low"; "total_post_tx_deaths_high";
   "total_deaths"; "total_xeno_used";
   "final_recipients_low"; "final_recipients_high_std";
   "final_recipients_high_xeno"; "simulation_time"].

(** The series each key is read from, in the same order. *)
Definition metric_series (exp : ExperimentResult) : list (list R) :=
  [C_low exp; C_high exp;
   waitlist_deaths_low exp; waitlist_deaths_high exp;
   post_tx_deaths_low exp; post_tx_deaths_high exp;
   total_deaths exp; xeno_used exp;
   H_low exp; H_high_std exp; H_high_xeno exp; times exp].

(** An experiment all of whose series have a last item. *)
Definition complete (exp : ExperimentResult) : Prop :=
  Forall (fun series => series <> []) (metric_series exp).

Definition is_metric (e : entry) : bool :=
  match e with Metric _ => true | Count _ => false end.

(** The last item of a series that has one. *)
Definition last_of (series : list R) : R := List.last series 0.

(** The final values of a complete experiment, by key. *)
Definition finals (exp : ExperimentResult) : list (string * R) :=
  combine metric_names (List.map last_of (metric_series exp)).

Definition value_of (key : string) (d : list (string * R)) : R :=
  match dict_get key d with
  | Returned v => v
  | Raised _ => 0
  end.

(** The statistics of one key over the experiments [exp :: exps]. *)
Definition column_stats (key : string) (exp : ExperimentResult)
    (exps : list ExperimentResult) : Stats :=
  statistics (value_of key (finals exp))
             (List.map (fun e => value_of key (finals e)) exps).

(** The summary of the complete experiments [exp :: exps]. *)
Definition summary_of (exp : ExperimentResult) (exps : list ExperimentResult)
  : list (string * entry) :=
  List.map (fun key => (key, Metric (column_stats key exp exps))) metric_names
    ++ [("num_experiments", Count (S (List.length exps)))].

End Summary.

(** ** Sample data *)

Module Samples.
Import Json Py Store Loader.

Definition config_file : string := "experiment_configs.json".
Definition uuid_hex : string := "0123456789abcdef0123456789abcdef".

Definition rates (low high : string) : json :=
  JDict [("0-85", JFloat low); ("85-100", JFloat high)].

Definition rates_swapped (low high : string) : json :=
  JDict [("85-100", JFloat high); ("0-85", JFloat low)].

Definition config_a : Configuration :=
  {| rates_cpra := rates "0.5" "0.1";
     xeno_rates_base := rates "0.2" "0.3";
     xeno_proportion := JFloat "0.5";
     low_key := JStr "0-85";
     high_key := JStr "85-100";
     T := JInt 3650 |}.

(** [config_a] with the keys of its rate tables inserted in the other
    order. *)
Definition config_a_swapped : Configuration :=
  {| rates_cpra := rates_swapped "0.5" "0.1";
     xeno_rates_base := rates_swapped "0.2" "0.3";
     xeno_proportion := JFloat "0.5";
     low_key := JStr "0-85";
     high_key := JStr "85-100";
     T := JInt 3650 |}.

Definition config_b : Configuration :=
  {| rates_cpra := rates "0.5" "0.1";
     xeno_rates_base := rates "0.2" "0.3";
     xeno_proportion := JFloat "0.5";
     low_key := JStr "0-85";
     high_key := JStr "85-100";
     T := JInt 365 |}.

Definition after (call : World -> outcome string * World) (w : World) : World :=
  snd (call w).

(** [config_a] saved as "a". *)
Definition world_a : World :=
  after (manage_experiment_config config_a (Some "a") config_file false uuid_hex)
        empty_world.

(** Then [config_a] renamed "b" and "b" overwritten with [config_b]:
    "a" still holds [config_a], whose hash is mapped no more. *)
Definition world_unmapped : World :=
  after (manage_experiment_config config_b (Some "b") config_file true uuid_hex)
    (after (manage_experiment_config config_a (Some "b") config_file true uuid_hex)
       world_a).

Definition run_files : list (string * Z) :=
  [("exp_0.pkl", 0); ("exp_10.pkl", 10); ("exp_2.pkl", 2)].

Definition run_disk : gmap string (list (string * Z)) :=
  {[ "monte_carlo/exp" := run_files ]}.


(** A run whose series all stop at [0], but for [total_deaths], which
    stops at [deaths]. *)
Definition run_with (deaths : R) : Summary.ExperimentResult :=
  {| Summary.C_low := [0%R]; Summary.C_high := [0%R];
     Summary.xeno_used := [0%R];
     Summary.waitlist_deaths_low := [0%R];
     Summary.waitlist_deaths_high := [0%R];
     Summary.post_tx_deaths_low := [0%R];
     Summary.post_tx_deaths_high := [0%R];
     Summary.total_deaths := [0%R; deaths];
     Summary.H_low := [0%R]; Summary.H_high_std := [0%R];
     Summary.H_high_xeno := [0%R]; Summary.times := [0%R] |}.

Definition three_runs : gmap string (list (string * Summary.ExperimentResult)) :=
  {[ "monte_carlo/exp" :=
       [("exp_0.pkl", run_with 10); ("exp_1.pkl", run_with 20);
        ("exp_2.pkl", run_with 30)] ]}.

Definition one_run : gmap string (list (string * Summary.ExperimentResult)) :=
  {[ "monte_carlo/exp" := [("exp_0.pkl", run_with 10)] ]}.

(** A folder with no result file of "exp". *)
Definition no_run : gmap string (list (string * Summary.ExperimentResult)) :=
  {[ "monte_carlo/exp" := [("other_0.pkl", run_with 10); ("exp_0.txt", run_with 20)] ]}.

End Samples.

(** ** Further notions used by the properties of the store and the loader *)

Module Consistency.
Import Json Py Store Loader.

(** Every hash [config_to_name] maps points at a name that holds a
    configuration of that hash. *)
Definition hash_consistent (data : Data) : Prop :=
  forall config_hash name,
    config_to_name data !! config_hash = Some name ->
    exists config,
      name_to_config data !! name = Some config
      /\ hash_of config = config_hash.

(** [config_to_name] after the cleanup of the overwrite path: the hash of
    the configuration that [name] holds is dropped if it points at
    [name]. *)
Definition cleaned (data : Data) (name : string) : gmap string string :=
  match name_to_config data !! name with
  | Some existing =>
      if decide (config_to_name data !! hash_of existing = Some name)
      then delete (hash_of existing) (config_to_name data)
      else config_to_name data
  | None => config_to_name data
  end.

(** The store a call saves when it saves. *)
Definition saved (c : Configuration) (name : string) (data : Data) : Data :=
  {| name_to_config := <[name := config_dict c]> (name_to_config data);
     config_to_name := <[hash_of (config_dict c) := name]> (cleaned data name) |}.

(** The call found the name bound to another configuration and was not
    allowed to overwrite it. *)
Definition name_conflict (c : Configuration) (name : option string)
    (config_file : string) (overwrite : bool) (uuid_hex : string) (w : World)
  : Prop :=
  overwrite = false
  /\ config_to_name (load_or_new config_file w) !! hash_of (config_dict c) = None
  /\ exists existing,
       name_to_config (load_or_new config_file w) !! resolve_name name uuid_hex
       = Some existing
       /\ hash_of existing <> hash_of (config_dict c).

End Consistency.

(** ** Texts without a given character *)

Module Chars.
Import Loader.

(** Every character of [s] passes the test [p]. *)
Fixpoint all_chars (p : ascii -> bool) (s : string) : bool :=
  match s with
  | EmptyString => true
  | String c rest => p c && all_chars p rest
  end.

(** [c] does not occur in [s]. *)
Definition without (c : ascii) (s : string) : bool :=
  all_chars (fun x => negb (Ascii.eqb x c)) s.

Definition is_digit (c : ascii) : bool :=
  match digit_value c with Some _ => true | None => false end.

(** The entries of a folder with the run index [k]. *)
Definition with_index {A} (k : Z) (entries : list (string * A))
  : list (string * A) :=
  List.filter (fun e => index_of (fst e) =? k) entries.

End Chars.

(** ** More sample data *)

Module MoreSamples.
Import Json Py Store Loader Samples.

(** [config_a] saved as "a" and then, with overwrite, as "b": both names
    hold it and its hash points at "b". *)
Definition world_two_names : World :=
  after (manage_experiment_config config_a (Some "b") config_file true uuid_hex)
        world_a.

(** A folder in which two files have the run index 1. *)
Definition tie_files : list (string * Z) :=
  [("exp_1.pkl", 10); ("exp_01.pkl", 20); ("exp_0.pkl", 30)].

Definition tie_disk : gmap string (list (string * Z)) :=
  {[ "monte_carlo/exp" := tie_files ]}.

(** A run with an empty time axis. *)
Definition run_without_times : Summary.ExperimentResult :=
  {| Summary.C_low := [0%R]; Summary.C_high := [0%R];
     Summary.xeno_used := [0%R];
     Summary.waitlist_deaths_low := [0%R];
     Summary.waitlist_deaths_high := [0%R];
     Summary.post_tx_deaths_low := [0%R];
     Summary.post_tx_deaths_high := [0%R];
     Summary.total_deaths := [0%R];
     Summary.H_low := [0%R]; Summary.H_high_std := [0%R];
     Summary.H_high_xeno := [0%R]; Summary.times := [] |}.

Definition broken_run : gmap string (list (string * Summary.ExperimentResult)) :=
  {[ "monte_carlo/exp" :=
       [("exp_0.pkl", run_with 10); ("exp_1.pkl", run_without_times)] ]}.

End MoreSamples.

(** ** The statistics as the specification words them *)

Module Statistics.
Import Summary.
Local Open Scope R_scope.

(** The sum of the values. *)
Definition sum_of (xs : list R) : R := fold_right Rplus 0 xs.

(** The arithmetic mean: the sum over the number of values. *)
Definition arithmetic_mean (xs : list R) : R :=
  sum_of xs / INR (List.length xs).

(** The population standard deviation: the square root of the sum of the
    squared distances to the mean, divided by the number N of values (and
    not by N - 1). *)
Definition population_std (xs : list R) : R :=
  sqrt (sum_of (List.map (fun x => (x - arithmetic_mean xs) ^ 2) xs)
        / INR (List.length xs)).

(** [m] is one of the values and none is smaller. *)
Definition is_minimum (m : R) (xs : list R) : Prop :=
  In m xs /\ forall v, In v xs -> m <= v.

(** [m] is one of the values and none is larger. *)
Definition is_maximum (m : R) (xs : list R) : Prop :=
  In m xs /\ forall v, In v xs -> v <= m.

(** The keys of [final_values], each with the series whose last item it
    holds. *)
Definition metric_fields : list (string * (ExperimentResult -> list R)) :=
  [("final_waitlist_low", C_low);
   ("final_waitlist_high", C_high);
   ("total_waitlist_deaths_low", waitlist_deaths_low);
   ("total_waitlist_deaths_high", waitlist_deaths_high);
   ("total_post_tx_deaths_low", post_tx_deaths_low);
   ("total_post_tx_deaths_high", post_tx_deaths_high);
   ("total_deaths", total_deaths);
   ("total_xeno_used", xeno_used);
   ("final_recipients_low", H_low);
   ("final_recipients_high_std", H_high_std);
   ("final_recipients_high_xeno", H_high_xeno);
   ("simulation_time", times)].

End Statistics.

(** * Properties *)

(** ** Values checked against the Python run time *)

Module Checks.
Import Json Py Store Loader.

(** The digests [hashlib.md5] gives for the empty text, for [abc] and for
    a text of more than one block. *)
Example md5_of_empty_text :
  MD5.hexdigest EmptyString = "d41d8cd98f00b204e9800998ecf8427e".
Proof. vm_compute. reflexivity. Qed.

Example md5_of_abc : MD5.hexdigest "abc" = "900150983cd24fb0d6963f7d28e17f72".
Proof. vm_compute. reflexivity. Qed.

Example md5_of_eighty_digits :
  MD5.hexdigest
    "12345678901234567890123456789012345678901234567890123456789012345678901234567890"
  = "57edf4a22be3c955ac49da2e2107b67a".
Proof. vm_compute. reflexivity. Qed.

(** The hash Python computes for the sample configurations. *)
Example hash_of_config_a :
  hash_of (config_dict Samples.config_a) = "85b6de6f57d2e573b4cb4471137b8b73"
  /\ hash_of (config_dict Samples.config_a_swapped)
     = "85b6de6f57d2e573b4cb4471137b8b73"
  /\ hash_of (config_dict Samples.config_b) = "09314ac8666b9ce8f44e49a2cac8e7f1".
Proof. repeat split; vm_compute; reflexivity. Qed.

(** What [int] accepts and what it rejects. *)
Example py_int_accepts :
  py_int "10" = Returned 10 /\ py_int "007" = Returned 7
  /\ py_int " 5 " = Returned 5 /\ py_int "-3" = Returned (-3)
  /\ py_int "+4" = Returned 4.
Proof. repeat split. Qed.

Example py_int_rejects :
  Forall (fun s => ~ is_returned (py_int s))
         [EmptyString; "final"; "1x"; "+"; "- 1"; "1 2"; "0x10"].
Proof. repeat (apply List.Forall_cons; [intros []|]). apply List.Forall_nil. Qed.

(** The text the run index is read from. *)
Example index_text_of_names :
  index_text "exp_10.pkl" = "10" /\ index_text "my_exp_3.pkl" = "3"
  /\ index_text "exp_final.pkl" = "final" /\ index_text "exp_1.5.pkl" = "1"
  /\ index_text "exp_.pkl" = EmptyString.
Proof. repeat split. Qed.

Example random_name_of_uuid :
  random_name Samples.uuid_hex = "exp_01234567".
Proof. reflexivity. Qed.

End Checks.

(** ** The canonical text ignores the key order *)

Module JsonFacts.
Import Text Json.

Lemma well_formed_list xs :
  well_formed (JList xs) <-> Forall well_formed xs.
Proof.
  simpl. induction xs as [|x xs IH]; [by split; [constructor|]|].
  rewrite Forall_cons, IH. done.
Qed.

Lemma well_formed_dict items :
  well_formed (JDict items)
  <-> NoDup (items.*1) /\ Forall (fun kv => well_formed (snd kv)) items.
Proof.
  simpl. change (List.map fst items) with (items.*1).
  apply and_iff_compat_l.
  induction items as [|[k v] items IH]; [by split; [constructor|]|].
  rewrite Forall_cons, IH. done.
Qed.

Lemma json_eqb_list xs ys :
  json_eqb (JList xs) (JList ys) = true
  <-> Forall2 (fun x y => json_eqb x y = true) xs ys.
Proof.
  simpl. revert ys. induction xs as [|x xs IH]; intros [|y ys]; simpl.
  - split; [constructor|done].
  - split; [done|inversion 1].
  - split; [done|inversion 1].
  - rewrite andb_true_iff, IH, Forall2_cons. done.
Qed.

Lemma json_eqb_dict xs ys :
  json_eqb (JDict xs) (JDict ys) = true
  <-> List.length xs = List.length ys
      /\ Forall (fun kv => exists v', lookup_item (fst kv) ys = Some v'
                                   /\ json_eqb (snd kv) v' = true) xs.
Proof.
  simpl. rewrite andb_true_iff, Nat.eqb_eq. apply and_iff_compat_l.
  induction xs as [|[k v] xs IH]; simpl.
  - split; [constructor|done].
  - rewrite andb_true_iff, IH, Forall_cons. simpl.
    apply and_iff_compat_r. destruct (lookup_item k ys) as [v'|].
    + split; [eauto|]. by intros (? & [= <-] & ?).
    + split; [done|]. by intros (? & [=] & ?).
Qed.

Lemma lookup_item_elem_of {V} k (v : V) l :
  lookup_item k l = Some v -> (k, v) ∈ l.
Proof.
  induction l as [|[k' v'] l IH]; simpl; [done|].
  destruct (String.eqb_spec k' k) as [->|].
  - intros [= ->]. left.
  - intros. right. auto.
Qed.

Lemma distinct_keys_functional {V} (l : list (string * V)) k v1 v2 :
  NoDup (l.*1) -> (k, v1) ∈ l -> (k, v2) ∈ l -> v1 = v2.
Proof.
  induction l as [|[k' v'] l IH]; simpl; [by inversion 2|].
  rewrite NoDup_cons. intros [Hk Hnd] H1 H2.
  apply elem_of_cons in H1, H2.
  destruct H1 as [E1|H1], H2 as [E2|H2]; simplify_eq; [done| | |eauto].
  - destruct Hk. apply list_elem_of_fmap. eexists; split; [|eassumption]; done.
  - destruct Hk. apply list_elem_of_fmap. eexists; split; [|eassumption]; done.
Qed.

(** *** Sorting the items of a dict *)

Lemma insert_item_perm {V} (kv : string * V) l :
  insert_item kv l ≡ₚ kv :: l.
Proof.
  induction l as [|kv' l IH]; simpl; [done|].
  destruct (String.leb _ _); [done|].
  rewrite IH. apply Permutation_swap.
Qed.

Lemma sort_items_perm {V} (l : list (string * V)) : sort_items l ≡ₚ l.
Proof.
  induction l as [|kv l IH]; simpl; [done|].
  unfold sort_items in *. simpl. by rewrite insert_item_perm, IH.
Qed.

Lemma leb_trans s1 s2 s3 :
  String.leb s1 s2 = true -> String.leb s2 s3 = true -> String.leb s1 s3 = true.
Proof.
  intros H1 H2.
  apply Is_true_true. apply Is_true_true in H1, H2.
  change (String.le s1 s3). by trans s2.
Qed.

Lemma insert_item_sorted {V} (kv : string * V) l :
  StronglySorted key_le l -> StronglySorted key_le (insert_item kv l).
Proof.
  induction 1 as [|kv' l Hs IH Hall]; simpl.
  - repeat constructor.
  - destruct (String.leb (fst kv) (fst kv')) eqn:Hle.
    + constructor; [by constructor|].
      constructor; [done|].
      eapply Forall_impl; [exact Hall|].
      intros x Hx. unfold key_le in *. by eapply leb_trans.
    + constructor; [done|].
      rewrite insert_item_perm. constructor; [|done].
      unfold key_le. by destruct (String.leb_total (fst kv) (fst kv')) as [?|?];
        [congruence|].
Qed.

Lemma sort_items_sorted {V} (l : list (string * V)) :
  StronglySorted key_le (sort_items l).
Proof.
  induction l as [|kv l IH]; [constructor|].
  by apply insert_item_sorted.
Qed.

(** Two dicts with the same items, whatever their order, have the same
    items in key order. *)
Lemma sort_items_unique {V} (l1 l2 : list (string * V)) :
  NoDup (l1.*1) -> l1 ≡ₚ l2 -> sort_items l1 = sort_items l2.
Proof.
  intros Hnd Hp.
  apply (StronglySorted_unique_strong key_le);
    [|apply sort_items_sorted..|by rewrite !sort_items_perm].
  intros [k1 v1] [k2 v2] H1 H2 Hle1 Hle2.
  rewrite sort_items_perm in H1. rewrite sort_items_perm, <- Hp in H2.
  unfold key_le in *. simpl in *.
  assert (k1 = k2) as <- by by apply String.leb_antisym.
  f_equal. by eapply distinct_keys_functional.
Qed.

(** The key order does not look at the values. *)
Lemma insert_item_map {V W} (f : V -> W) k v (l : list (string * V)) :
  insert_item (k, f v) (List.map (fun kv => (fst kv, f (snd kv))) l)
  = List.map (fun kv => (fst kv, f (snd kv))) (insert_item (k, v) l).
Proof.
  induction l as [|[k' v'] l IH]; simpl; [done|].
  destruct (String.leb k k'); simpl; [done|]. by rewrite IH.
Qed.

Lemma sort_items_map {V W} (f : V -> W) (l : list (string * V)) :
  sort_items (List.map (fun kv => (fst kv, f (snd kv))) l)
  = List.map (fun kv => (fst kv, f (snd kv))) (sort_items l).
Proof.
  induction l as [|[k v] l IH]; simpl; [done|].
  unfold sort_items in *. simpl. rewrite IH. apply insert_item_map.
Qed.

(** *** The text of a dict *)

Lemma dumps_dict sort_keys items :
  dumps sort_keys (JDict items)
  = "{" +:+ join ", "
      (List.map render_item
         (if sort_keys then sort_items (rendered sort_keys items)
          else rendered sort_keys items)) +:+ "}".
Proof.
  simpl. unfold rendered. do 3 f_equal.
  assert (List.map (fun kv : string * json =>
                      let '(k, v) := kv in (k, dumps sort_keys v)) items
          = List.map (fun kv => (fst kv, dumps sort_keys (snd kv))) items) as E.
  { apply List.map_ext. by intros [??]. }
  fold (dumps sort_keys). by rewrite E.
Qed.

(** Sorting the items and then rendering each value, as the encoder
    does, gives the text of [dumps]. *)
Lemma dumps_dict_sorted_first items :
  dumps true (JDict items)
  = "{" +:+ join ", "
      (List.map (fun kv => encode_string (fst kv) +:+ ": " +:+ dumps true (snd kv))
                (sort_items items)) +:+ "}".
Proof.
  rewrite dumps_dict. unfold rendered.
  by rewrite sort_items_map, List.map_map.
Qed.

Lemma rendered_keys sort_keys items : (rendered sort_keys items).*1 = items.*1.
Proof.
  unfold rendered. change (List.map ?f ?l) with (f <$> l).
  rewrite <- list_fmap_compose. done.
Qed.

(** Two well-formed values equal field by field have the same canonical
    text. *)
Lemma json_eqb_dumps a :
  forall b, well_formed a -> well_formed b -> json_eqb a b = true ->
            dumps true a = dumps true b.
Proof.
  induction a as [| x | x | x | x | xs IH | xs IH] using json_nested_ind;
    intros [| y | y | y | y | ys | ys] Ha Hb Heq; try discriminate Heq.
  - done.
  - simpl in Heq. apply Bool.eqb_prop in Heq. by subst.
  - simpl in Heq. apply Z.eqb_eq in Heq. by subst.
  - simpl in Heq. apply String.eqb_eq in Heq. by subst.
  - simpl in Heq. apply String.eqb_eq in Heq. by subst.
  - apply well_formed_list in Ha, Hb. apply json_eqb_list in Heq.
    simpl. do 3 f_equal.
    revert IH Ha Hb. induction Heq as [|x y xs ys Hxy Hrest IHrest];
      intros IH Ha Hb; [done|].
    apply Forall_cons in IH as [IHx IH], Ha as [Hx Ha], Hb as [Hy Hb].
    simpl. f_equal; auto.
  - apply well_formed_dict in Ha as [Hnd_a Ha], Hb as [Hnd_b Hb].
    apply json_eqb_dict in Heq as [Hlen Heq].
    rewrite !dumps_dict. do 4 f_equal.
    apply sort_items_unique; [by rewrite rendered_keys|].
    apply submseteq_length_Permutation.
    + apply NoDup_submseteq.
      { eapply NoDup_fmap_1. by rewrite rendered_keys. }
      intros [k s] Hks. unfold rendered in *.
      apply list_elem_of_In, in_map_iff in Hks as ([k' v] & [= -> <-] & Hin).
      apply list_elem_of_In in Hin.
      rewrite Forall_forall in IH, Ha, Heq.
      destruct (Heq _ Hin) as (v' & Hlook & Hvv'). simpl in *.
      apply lookup_item_elem_of in Hlook.
      rewrite Forall_forall in Hb.
      apply list_elem_of_In, in_map_iff. exists (k, v'). split.
      * simpl. f_equal. symmetry.
        exact (IH _ Hin v' (Ha _ Hin) (Hb _ Hlook) Hvv').
      * by apply list_elem_of_In.
    + unfold rendered. rewrite !length_map. lia.
Qed.

End JsonFacts.

(** ** The configuration store *)

Module StoreFacts.
Import Json Py Store JsonFacts.

(** Configurations equal field by field have the same hash, whatever
    the insertion order of the keys of their dicts. *)
Lemma config_eqb_hash c1 c2 :
  config_well_formed c1 -> config_well_formed c2 -> config_eqb c1 c2 = true ->
  hash_of (config_dict c1) = hash_of (config_dict c2).
Proof.
  intros (W1 & W2 & W3 & W4 & W5 & W6) (V1 & V2 & V3 & V4 & V5 & V6) Heq.
  unfold config_eqb in Heq. rewrite !andb_true_iff in Heq.
  destruct Heq as (((((E1 & E2) & E3) & E4) & E5) & E6).
  unfold hash_of, config_dict. f_equal.
  rewrite !dumps_dict. unfold rendered. simpl.
  by rewrite (json_eqb_dumps _ _ W1 V1 E1), (json_eqb_dumps _ _ W2 V2 E2),
    (json_eqb_dumps _ _ W3 V3 E3), (json_eqb_dumps _ _ W4 V4 E4),
    (json_eqb_dumps _ _ W5 V5 E5), (json_eqb_dumps _ _ W6 V6 E6).
Qed.

Lemma load_or_new_save file data w : load_or_new file (save file data w) = data.
Proof. unfold load_or_new, save. simpl. by rewrite lookup_insert_eq. Qed.

Lemma manage_hash_mapped c name file uuid w existing :
  config_to_name (load_or_new file w) !! hash_of (config_dict c) = Some existing ->
  manage_experiment_config c name file false uuid w = (Returned existing, w).
Proof.
  intros Hmap. unfold manage_experiment_config. rewrite Hmap.
  by case_decide; simplify_eq.
Qed.

(** A call without overwrite that returns either changes nothing or
    leaves the hash mapped to the name it returns. *)
Lemma manage_returned c name file uuid w n w1 :
  manage_experiment_config c name file false uuid w = (Returned n, w1) ->
  (w1 = w /\ config_to_name (load_or_new file w) !! hash_of (config_dict c) = Some n)
  \/ (w1 = w /\ n = resolve_name name uuid
      /\ config_to_name (load_or_new file w) !! hash_of (config_dict c) = None
      /\ exists existing,
           name_to_config (load_or_new file w) !! n = Some existing
           /\ hash_of existing = hash_of (config_dict c))
  \/ (n = resolve_name name uuid
      /\ config_to_name (load_or_new file w) !! hash_of (config_dict c) = None
      /\ name_to_config (load_or_new file w) !! n = None
      /\ config_to_name (load_or_new file w1) !! hash_of (config_dict c) = Some n).
Proof.
  unfold manage_experiment_config, name_case, update_and_save. simpl.
  destruct (config_to_name _ !! hash_of _) as [existing|] eqn:Hmap.
  { intros. left. case_decide; simplify_eq; done. }
  destruct (name_to_config _ !! resolve_name _ _) as [existing|] eqn:Hname.
  - case_decide; [|done]. intros [= <- <-]. right. left. eauto 10.
  - intros [= <- <-]. right. right.
    rewrite load_or_new_save. simpl. by rewrite lookup_insert_eq.
Qed.

End StoreFacts.

(** ** Claims about the configuration store *)

Section store_claims.
Import Json Py Store JsonFacts StoreFacts.

(** C1, as the code has it.  Two well-formed configurations equal field
    by field (whatever the insertion order of their keys) are given to
    [manage_experiment_config] without overwrite, one after the other.
    If the first call returns a name and, after it, the hash of the
    configuration is mapped in [config_to_name] or the second call asks
    for the name the first one asked for, then the second call returns
    the same name and leaves the world as it is: no file changes and
    nothing is written.  When the hash was mapped before the first call,
    the name it was mapped to is the one returned, whatever name was
    asked for, and the first call wrote nothing either. *)
Theorem manage_dedup_by_content c1 c2 name1 name2 file uuid1 uuid2 w n w1 :
  config_well_formed c1 -> config_well_formed c2 -> config_eqb c1 c2 = true ->
  manage_experiment_config c1 name1 file false uuid1 w = (Returned n, w1) ->
  is_Some (config_to_name (load_or_new file w1) !! hash_of (config_dict c1))
    \/ resolve_name name1 uuid1 = resolve_name name2 uuid2 ->
  manage_experiment_config c2 name2 file false uuid2 w1 = (Returned n, w1)
  /\ (forall existing,
        config_to_name (load_or_new file w) !! hash_of (config_dict c1)
          = Some existing ->
        n = existing /\ w1 = w).
Proof.
  intros W1 W2 Heq Hcall Hor.
  pose proof (config_eqb_hash _ _ W1 W2 Heq) as Hh.
  split.
  - apply manage_returned in Hcall
      as [[-> Hmap]|[(-> & -> & Hnone & cfg & Hname & Hcfg)|(-> & Hnone & Hname & Hmap)]].
    + apply manage_hash_mapped. by rewrite <- Hh.
    + destruct Hor as [[? Hsome]|Hsame]; [congruence|].
      unfold manage_experiment_config, name_case.
      rewrite <- Hh, Hnone, <- Hsame, Hname.
      by case_decide.
    + apply manage_hash_mapped. by rewrite <- Hh.
  - intros existing Hmap.
    rewrite (manage_hash_mapped _ _ _ _ _ _ Hmap) in Hcall. by simplify_eq.
Qed.

(** C3.  The store file exists, the requested name is bound there to a
    configuration of another hash, the hash of the new configuration is
    not mapped, and overwrite is off: the call raises the name-conflict
    [ValueError] and the world is the one before the call, files and
    write log alike. *)
Theorem manage_name_conflict c name file uuid w data existing :
  files w !! file = Some data ->
  name_to_config data !! resolve_name name uuid = Some existing ->
  hash_of existing <> hash_of (config_dict c) ->
  config_to_name data !! hash_of (config_dict c) = None ->
  manage_experiment_config c name file false uuid w
  = (Raised (ValueError (name_conflict_message (resolve_name name uuid))), w).
Proof.
  intros Hfile Hname Hdiff Hnone.
  unfold manage_experiment_config, name_case, load_or_new.
  rewrite Hfile, Hnone, Hname. by case_decide.
Qed.

(** C8.  The requested name is bound to a configuration of another hash,
    the hash of the new configuration is not mapped to that name (it is
    unmapped, or mapped to another name), and overwrite is on: the call
    returns the name and saves, with one write, the store in which the
    old hash has been deleted from [config_to_name] exactly when it was
    mapped to the requested name, and then the name is bound to the new
    configuration and the new hash mapped to the name. *)
Theorem manage_overwrite_cleanup c name file uuid w data existing :
  files w !! file = Some data ->
  name_to_config data !! resolve_name name uuid = Some existing ->
  hash_of existing <> hash_of (config_dict c) ->
  config_to_name data !! hash_of (config_dict c) <> Some (resolve_name name uuid) ->
  manage_experiment_config c name file true uuid w
  = (Returned (resolve_name name uuid),
     save file
       {| name_to_config :=
            <[resolve_name name uuid := config_dict c]> (name_to_config data);
          config_to_name :=
            <[hash_of (config_dict c) := resolve_name name uuid]>
              (if decide (config_to_name data !! hash_of existing
                          = Some (resolve_name name uuid))
               then delete (hash_of existing) (config_to_name data)
               else config_to_name data) |} w).
Proof.
  intros Hfile Hname Hdiff Hmap.
  unfold manage_experiment_config, name_case, update_and_save, load_or_new.
  rewrite Hfile, Hname.
  assert (forall r,
    match config_to_name data !! hash_of (config_dict c) with
    | Some existing_name =>
        if decide (existing_name = resolve_name name uuid)
        then (Returned (resolve_name name uuid), w)
        else if negb true then (Returned existing_name, w) else r
    | None => r
    end = r) as ->.
  { intros r. destruct (config_to_name data !! _) as [e|]; [|done].
    case_decide; [congruence|done]. }
  case_decide; [done|]. simpl. do 3 f_equal.
  destruct (config_to_name data !! hash_of existing) as [e|] eqn:He.
  - repeat case_decide; congruence.
  - by case_decide.
Qed.

(** C9.  [get_name_by_config] returns [None] when the store file is
    missing and when the hash of the configuration is not mapped; on a
    fresh store (no file, or a file with the two empty mappings) a call
    of [manage_experiment_config] returns the name it resolved, and
    [get_name_by_config] then returns that name. *)
Theorem get_name_round_trip c file :
  (forall w, files w !! file = None -> get_name_by_config c file w = None)
  /\ (forall w data,
        files w !! file = Some data ->
        config_to_name data !! hash_of (config_dict c) = None ->
        get_name_by_config c file w = None)
  /\ (forall w name overwrite uuid,
        load_or_new file w = empty_data ->
        exists w',
          manage_experiment_config c name file overwrite uuid w
          = (Returned (resolve_name name uuid), w')
          /\ get_name_by_config c file w' = Some (resolve_name name uuid)).
Proof.
  split; [|split].
  - intros w Hfile. unfold get_name_by_config. by rewrite Hfile.
  - intros w data Hfile Hnone. unfold get_name_by_config. by rewrite Hfile.
  - intros w name overwrite uuid Hfresh. eexists. split.
    + unfold manage_experiment_config, name_case, update_and_save.
      rewrite Hfresh. simpl. rewrite !lookup_empty. reflexivity.
    + unfold get_name_by_config, save. simpl.
      rewrite lookup_insert_eq. simpl. by rewrite lookup_insert_eq.
Qed.

(** C10.  Every call of [manage_experiment_config], whatever its
    outcome, keeps [names_bound]: a name [config_to_name] points at is
    a key of [name_to_config].  No key of [name_to_config] is ever
    removed, and an entry of [config_to_name] after the call either was
    there before or maps the new hash to a name bound, by the same
    write, to the new configuration. *)
Theorem manage_preserves_names_bound c name file overwrite uuid w r w' :
  names_bound (load_or_new file w) ->
  manage_experiment_config c name file overwrite uuid w = (r, w') ->
  names_bound (load_or_new file w')
  /\ dom (name_to_config (load_or_new file w))
       ⊆ dom (name_to_config (load_or_new file w'))
  /\ (forall config_hash name',
        config_to_name (load_or_new file w') !! config_hash = Some name' ->
        config_to_name (load_or_new file w) !! config_hash = Some name'
        \/ (config_hash = hash_of (config_dict c)
            /\ name_to_config (load_or_new file w') !! name' = Some (config_dict c))).
Proof.
  intros Hinv.
  assert (forall n2c c2n nm,
    n2c = name_to_config (load_or_new file w) ->
    (forall h n, c2n !! h = Some n ->
                 config_to_name (load_or_new file w) !! h = Some n) ->
    update_and_save (config_dict c) (hash_of (config_dict c)) nm file n2c c2n w
      = (r, w') ->
    names_bound (load_or_new file w')
    /\ dom (name_to_config (load_or_new file w))
         ⊆ dom (name_to_config (load_or_new file w'))
    /\ (forall config_hash name',
          config_to_name (load_or_new file w') !! config_hash = Some name' ->
          config_to_name (load_or_new file w) !! config_hash = Some name'
          \/ (config_hash = hash_of (config_dict c)
              /\ name_to_config (load_or_new file w') !! name'
                 = Some (config_dict c)))) as Hsave.
  { intros n2c c2n nm -> Hsub. unfold update_and_save. intros [= <- <-].
    rewrite load_or_new_save. simpl. split; [|split].
    - intros h n. simpl. rewrite lookup_insert.
      case_decide; [intros [= <-]; by rewrite lookup_insert_eq|].
      intros Hn%Hsub%Hinv. rewrite lookup_insert. by case_decide.
    - rewrite dom_insert_L. set_solver.
    - intros h n. rewrite lookup_insert.
      case_decide; [intros [= <-]; right; by rewrite lookup_insert_eq|].
      intros Hn%Hsub. by left. }
  assert (names_bound (load_or_new file w)
    /\ dom (name_to_config (load_or_new file w))
         ⊆ dom (name_to_config (load_or_new file w))
    /\ (forall config_hash name',
          config_to_name (load_or_new file w) !! config_hash = Some name' ->
          config_to_name (load_or_new file w) !! config_hash = Some name'
          \/ (config_hash = hash_of (config_dict c)
              /\ name_to_config (load_or_new file w) !! name'
                 = Some (config_dict c)))) as Hsame by auto.
  assert (forall ow, name_case (config_dict c) (hash_of (config_dict c))
                    (resolve_name name uuid) file ow (load_or_new file w) w
                  = (r, w') ->
          names_bound (load_or_new file w')
          /\ dom (name_to_config (load_or_new file w))
               ⊆ dom (name_to_config (load_or_new file w'))
          /\ (forall config_hash name',
                config_to_name (load_or_new file w') !! config_hash = Some name' ->
                config_to_name (load_or_new file w) !! config_hash = Some name'
                \/ (config_hash = hash_of (config_dict c)
                    /\ name_to_config (load_or_new file w') !! name'
                       = Some (config_dict c)))) as Hcase.
  { intros ow. unfold name_case.
    destruct (name_to_config _ !! resolve_name _ _) as [cfg|].
    - case_decide; [by intros [= <- <-]|].
      destruct ow; simpl; [|by intros [= <- <-]].
      apply Hsave; [done|].
      destruct (config_to_name _ !! hash_of cfg) as [e|]; [|done].
      case_decide; [|done]. intros h n. rewrite lookup_delete.
      by case_decide.
    - by apply Hsave. }
  unfold manage_experiment_config.
  destruct (config_to_name _ !! hash_of (config_dict c)) as [e|]; [|apply Hcase].
  case_decide; [by intros [= <- <-]|].
  destruct overwrite; simpl; [apply Hcase|by intros [= <- <-]].
Qed.

(** *** Runs on the sample data *)

Lemma sample_configs_well_formed :
  config_well_formed Samples.config_a
  /\ config_well_formed Samples.config_a_swapped
  /\ config_well_formed Samples.config_b.
Proof.
  repeat split;
    try (apply NoDup_ListNoDup; repeat constructor; simpl; intuition discriminate).
Qed.

(** C1 at [config_a] saved as "a" in an empty world, then asked for
    again with its keys swapped and under another name. *)
Lemma manage_dedup_by_content_witness :
  manage_experiment_config Samples.config_a_swapped (Some "other")
    Samples.config_file false Samples.uuid_hex Samples.world_a
  = (Returned "a", Samples.world_a)
  /\ (forall existing,
        config_to_name (load_or_new Samples.config_file empty_world)
          !! hash_of (config_dict Samples.config_a) = Some existing ->
        "a" = existing /\ Samples.world_a = empty_world).
Proof.
  apply (manage_dedup_by_content Samples.config_a Samples.config_a_swapped
           (Some "a") (Some "other") Samples.config_file
           Samples.uuid_hex Samples.uuid_hex empty_world "a" Samples.world_a).
  - apply sample_configs_well_formed.
  - apply sample_configs_well_formed.
  - vm_compute. reflexivity.
  - vm_cast_no_check (eq_refl (Returned "a", Samples.world_a)).
  - left. exists "a". vm_cast_no_check (eq_refl (Some "a")).
Defined.

(** C3 in [world_a]: "a" holds [config_a], and [config_b] asks for "a". *)
Lemma manage_name_conflict_witness :
  manage_experiment_config Samples.config_b (Some "a") Samples.config_file
    false Samples.uuid_hex Samples.world_a
  = (Raised (ValueError (name_conflict_message "a")), Samples.world_a).
Proof.
  apply (manage_name_conflict Samples.config_b (Some "a") Samples.config_file
           Samples.uuid_hex Samples.world_a
           (load_or_new Samples.config_file Samples.world_a)
           (config_dict Samples.config_a)).
  - vm_compute. reflexivity.
  - vm_compute. reflexivity.
  - vm_compute. discriminate.
  - vm_compute. reflexivity.
Defined.

(** C8 in [world_a]: [config_b] overwrites "a"; the hash of [config_a]
    was mapped to "a" and is deleted. *)
Lemma manage_overwrite_cleanup_witness :
  manage_experiment_config Samples.config_b (Some "a") Samples.config_file
    true Samples.uuid_hex Samples.world_a
  = (Returned "a",
     save Samples.config_file
       {| name_to_config :=
            <["a" := config_dict Samples.config_b]>
              (name_to_config (load_or_new Samples.config_file Samples.world_a));
          config_to_name :=
            <[hash_of (config_dict Samples.config_b) := "a"]>
              (if decide (config_to_name
                            (load_or_new Samples.config_file Samples.world_a)
                            !! hash_of (config_dict Samples.config_a)
                          = Some "a")
               then delete (hash_of (config_dict Samples.config_a))
                      (config_to_name
                         (load_or_new Samples.config_file Samples.world_a))
               else config_to_name
                      (load_or_new Samples.config_file Samples.world_a)) |}
       Samples.world_a).
Proof.
  apply (manage_overwrite_cleanup Samples.config_b (Some "a")
           Samples.config_file Samples.uuid_hex Samples.world_a
           (load_or_new Samples.config_file Samples.world_a)
           (config_dict Samples.config_a)).
  - vm_compute. reflexivity.
  - vm_compute. reflexivity.
  - vm_compute. discriminate.
  - vm_compute. discriminate.
Defined.

(** C9 for [config_a] in the empty world. *)
Lemma get_name_round_trip_witness :
  get_name_by_config Samples.config_a Samples.config_file empty_world = None
  /\ exists w',
       manage_experiment_config Samples.config_a (Some "a")
         Samples.config_file false Samples.uuid_hex empty_world
       = (Returned "a", w')
       /\ get_name_by_config Samples.config_a Samples.config_file w' = Some "a".
Proof.
  destruct (get_name_round_trip Samples.config_a Samples.config_file)
    as (Hmissing & _ & Hfresh).
  split.
  - apply Hmissing. reflexivity.
  - apply (Hfresh empty_world (Some "a") false Samples.uuid_hex). reflexivity.
Defined.

(** C10 for the first save in the empty world. *)
Lemma manage_preserves_names_bound_witness :
  names_bound (load_or_new Samples.config_file Samples.world_a)
  /\ dom (name_to_config (load_or_new Samples.config_file empty_world))
       ⊆ dom (name_to_config (load_or_new Samples.config_file Samples.world_a))
  /\ (forall config_hash name',
        config_to_name (load_or_new Samples.config_file Samples.world_a)
          !! config_hash = Some name' ->
        config_to_name (load_or_new Samples.config_file empty_world)
          !! config_hash = Some name'
        \/ (config_hash = hash_of (config_dict Samples.config_a)
            /\ name_to_config (load_or_new Samples.config_file Samples.world_a)
                 !! name' = Some (config_dict Samples.config_a))).
Proof.
  apply (manage_preserves_names_bound Samples.config_a (Some "a")
           Samples.config_file false Samples.uuid_hex empty_world
           (Returned "a") Samples.world_a).
  - intros h n. unfold load_or_new, empty_world. simpl.
    rewrite lookup_empty. simpl. rewrite lookup_empty. discriminate.
  - vm_cast_no_check (eq_refl (Returned "a", Samples.world_a)).
Defined.

(** C1 as the claim states it fails in [world_unmapped], a world three
    calls away from the empty one, in which "a" holds [config_a] and the
    hash of [config_a] is not mapped: asked for as "a", [config_a] is
    found under "a" and nothing is written; asked for again as "z", with
    its keys swapped, it is saved under "z". *)
Lemma manage_dedup_counterexample :
  name_to_config (load_or_new Samples.config_file Samples.world_unmapped) !! "a"
  = Some (config_dict Samples.config_a)
  /\ config_to_name (load_or_new Samples.config_file Samples.world_unmapped)
       !! hash_of (config_dict Samples.config_a) = None
  /\ config_eqb Samples.config_a Samples.config_a_swapped = true
  /\ manage_experiment_config Samples.config_a (Some "a")
       Samples.config_file false Samples.uuid_hex Samples.world_unmapped
     = (Returned "a", Samples.world_unmapped)
  /\ fst (manage_experiment_config Samples.config_a_swapped (Some "z")
            Samples.config_file false Samples.uuid_hex Samples.world_unmapped)
     = Returned "z"
  /\ List.length
       (write_log
          (snd (manage_experiment_config Samples.config_a_swapped (Some "z")
                  Samples.config_file false Samples.uuid_hex
                  Samples.world_unmapped)))
     = S (List.length (write_log Samples.world_unmapped)).
Proof.
  split; [vm_cast_no_check (eq_refl (Some (config_dict Samples.config_a)))|].
  split; [vm_cast_no_check (eq_refl (@None string))|].
  split; [vm_compute; reflexivity|].
  split; [vm_cast_no_check (eq_refl (Returned "a", Samples.world_unmapped))|].
  split; [vm_cast_no_check (eq_refl (Returned "z"))|].
  vm_cast_no_check (eq_refl (S (List.length (write_log Samples.world_unmapped)))).
Qed.

End store_claims.

(** ** Loading the result files *)

Module LoaderFacts.
Import Py Loader.

(** A loop whose every turn returns, returns what the turns return. *)
Lemma for_each_returned {A B} (f : A -> outcome B) (g : A -> B) l :
  Forall (fun x => f x = Returned (g x)) l ->
  for_each f l = Returned (List.map g l).
Proof.
  induction 1 as [|x l Hx _ IH]; [done|].
  simpl. rewrite Hx. simpl. by rewrite IH.
Qed.

(** A loop one turn of which raises, raises what some turn raises. *)
Lemma for_each_raised {A B} (f : A -> outcome B) l x :
  x ∈ l -> ~ is_returned (f x) ->
  exists x' e, x' ∈ l /\ f x' = Raised e /\ for_each f l = Raised e.
Proof.
  induction l as [|y l IH]; [by inversion 1|].
  intros Hin Hx. simpl.
  destruct (f y) as [b|e] eqn:Hy.
  - apply elem_of_cons in Hin as [->|Hin].
    { rewrite Hy in Hx. by destruct Hx. }
    destruct (IH Hin Hx) as (x' & e & Hx' & Hf & Hall).
    exists x', e. split; [by right|]. split; [done|].
    simpl. by rewrite Hall.
  - exists y, e. split; [left|]. done.
Qed.

(** The sort key raises nothing but a [ValueError]. *)
Lemma run_index_raised filename e :
  run_index filename = Raised e -> exists msg, e = ValueError msg.
Proof.
  unfold run_index, py_int.
  destruct (match rstrip _ with EmptyString => _ | String _ _ => _ end)
    as [negative digits].
  destruct digits; [intros [= <-]; by eexists|].
  destruct (digits_value _ _); [done|]. intros [= <-]. by eexists.
Qed.

Lemma index_of_returned filename :
  is_returned (run_index filename) ->
  run_index filename = Returned (index_of filename).
Proof. unfold index_of. by destruct (run_index filename). Qed.

(** *** The stable sort by key *)

Lemma insert_keyed_perm {X} (kx : Z * X) l : insert_keyed kx l ≡ₚ kx :: l.
Proof.
  induction l as [|ky l IH]; simpl; [done|].
  destruct (_ <=? _); [done|]. rewrite IH. apply Permutation_swap.
Qed.

Lemma insert_keyed_sorted {X} (kx : Z * X) l :
  StronglySorted keyed_le l -> StronglySorted keyed_le (insert_keyed kx l).
Proof.
  induction 1 as [|ky l Hs IH Hall]; simpl.
  - repeat constructor.
  - destruct (Z.leb_spec (fst kx) (fst ky)).
    + constructor; [by constructor|].
      constructor; [done|].
      eapply Forall_impl; [exact Hall|].
      unfold keyed_le. intros; lia.
    + constructor; [done|].
      rewrite insert_keyed_perm. constructor; [|done].
      unfold keyed_le. lia.
Qed.

Lemma sort_keyed_perm {X} (l : list (Z * X)) : foldr insert_keyed [] l ≡ₚ l.
Proof.
  induction l as [|kx l IH]; simpl; [done|].
  by rewrite insert_keyed_perm, IH.
Qed.

Lemma sort_keyed_sorted {X} (l : list (Z * X)) :
  StronglySorted keyed_le (foldr insert_keyed [] l).
Proof.
  induction l as [|kx l IH]; [constructor|]. by apply insert_keyed_sorted.
Qed.

(** When every key is there, [sort_by_key] returns the items in the
    order of their keys. *)
Lemma sort_by_key_returned {X} (key : X -> outcome Z) (k : X -> Z) l :
  Forall (fun x => key x = Returned (k x)) l ->
  exists sorted,
    sort_by_key key l = Returned sorted
    /\ sorted ≡ₚ l
    /\ StronglySorted (fun x y => k x <= k y) sorted.
Proof.
  intros Hkeys. unfold sort_by_key.
  rewrite (for_each_returned _ (fun x => (k x, x))).
  2:{ eapply Forall_impl; [exact Hkeys|]. intros x ->. done. }
  simpl. eexists. split; [done|].
  set (keyed := List.map (fun x => (k x, x)) l).
  assert (Forall (fun kx => fst kx = k (snd kx)) (foldr insert_keyed [] keyed))
    as Hfst.
  { rewrite sort_keyed_perm. subst keyed.
    apply Forall_forall. intros kx [x [<- _]]%list_elem_of_In%in_map_iff. done. }
  split.
  - change (List.map ?f ?l) with (f <$> l).
    rewrite sort_keyed_perm. subst keyed.
    change (List.map ?f ?l) with (f <$> l).
    rewrite <- list_fmap_compose. by rewrite list_fmap_id.
  - pose proof (sort_keyed_sorted keyed) as Hs.
    induction Hs as [|kx rest Hs IH Hall]; [constructor|].
    apply Forall_cons in Hfst as [Hkx Hfst].
    simpl. constructor; [by apply IH|].
    apply Forall_forall. intros y [ky [<- Hky]]%list_elem_of_In%in_map_iff.
    apply list_elem_of_In in Hky.
    rewrite Forall_forall in Hall, Hfst.
    specialize (Hall _ Hky). specialize (Hfst _ Hky).
    unfold keyed_le in Hall. lia.
Qed.

Lemma filter_perm {X} (f : X -> bool) l l' :
  l ≡ₚ l' -> List.filter f l ≡ₚ List.filter f l'.
Proof.
  induction 1 as [|x l l' _ IH|x y l|l l' l'' _ IH1 _ IH2]; simpl.
  - done.
  - destruct (f x); by rewrite IH.
  - destruct (f x), (f y); try done. apply Permutation_swap.
  - by rewrite IH1.
Qed.

(** What [load_experiment_results] returns when the name of every
    result file has a run index. *)
Lemma load_sorted {A} config_name experiment_folder base_folder
    (disk : gmap string (list (string * A))) entries :
  disk !! resolve_folder config_name experiment_folder base_folder
    = Some entries ->
  Forall (fun e => is_returned (run_index (fst e)))
         (result_files config_name entries) ->
  exists sorted,
    load_experiment_results config_name experiment_folder base_folder disk
    = Returned (List.map snd sorted)
    /\ sorted ≡ₚ result_files config_name entries
    /\ StronglySorted index_le sorted.
Proof.
  intros Hdisk Hkeys. unfold load_experiment_results. rewrite Hdisk.
  destruct (sort_by_key_returned (fun e : string * A => run_index (fst e))
              (fun e => index_of (fst e)) (result_files config_name entries))
    as (sorted & Hsort & Hperm & Hsorted).
  { eapply Forall_impl; [exact Hkeys|]. intros e. apply index_of_returned. }
  exists sorted. unfold result_files in *. by rewrite Hsort.
Qed.

End LoaderFacts.

(** ** Claims about the loader *)

Section loader_claims.
Import Py Loader LoaderFacts.

(** C5.  When the folder exists and the name of each of its result
    files has a run index, [load_experiment_results] returns the
    objects of the result files, each once, in ascending order of the
    run index read as an integer.  For the files [exp_0.pkl],
    [exp_10.pkl] and [exp_2.pkl], in whatever order the folder lists
    them, the objects come in the order 0, 2, 10. *)
Theorem load_in_run_index_order {A} config_name experiment_folder base_folder
    (disk : gmap string (list (string * A))) entries :
  disk !! resolve_folder config_name experiment_folder base_folder
    = Some entries ->
  Forall (fun e => is_returned (run_index (fst e)))
         (result_files config_name entries) ->
  (exists sorted,
     load_experiment_results config_name experiment_folder base_folder disk
     = Returned (List.map snd sorted)
     /\ sorted ≡ₚ result_files config_name entries
     /\ StronglySorted index_le sorted)
  /\ (forall listing,
        listing ≡ₚ Samples.run_files ->
        load_experiment_results "exp" None "monte_carlo"
          ({[ "monte_carlo/exp" := listing ]} : gmap string (list (string * Z)))
        = Returned [0; 2; 10]).
Proof.
  intros Hdisk Hkeys. split; [by eapply load_sorted|].
  clear. intros listing Hperm.
  assert (result_files "exp" listing ≡ₚ Samples.run_files) as Hfiles.
  { unfold result_files. by rewrite (filter_perm _ _ _ Hperm). }
  destruct (load_sorted "exp" None "monte_carlo"
              ({[ "monte_carlo/exp" := listing ]}) listing)
    as (sorted & -> & Hsorted_perm & Hsorted).
  { apply lookup_singleton_eq. }
  { rewrite Hfiles. repeat constructor. }
  rewrite Hfiles in Hsorted_perm.
  assert (sorted = [("exp_0.pkl", 0); ("exp_2.pkl", 2); ("exp_10.pkl", 10)])
    as ->; [|done].
  apply (StronglySorted_unique_strong index_le); [|done| |].
  - intros x1 x2 H1 H2. rewrite Hsorted_perm in H1.
    unfold Samples.run_files in H1.
    repeat (apply elem_of_cons in H1 as [->|H1]);
      [| | |by apply elem_of_nil in H1];
      repeat (apply elem_of_cons in H2 as [->|H2]);
      try (by apply elem_of_nil in H2);
      unfold index_le; vm_compute; try done; intros Hle1 Hle2;
      by (destruct Hle1 || destruct Hle2).
  - repeat constructor; unfold index_le; by vm_compute.
  - rewrite Hsorted_perm. unfold Samples.run_files.
    apply perm_skip, Permutation_swap.
Qed.

(** C5 on the sample folder. *)
Lemma load_in_run_index_order_witness :
  (exists sorted,
     load_experiment_results "exp" None "monte_carlo" Samples.run_disk
     = Returned (List.map snd sorted)
     /\ sorted ≡ₚ result_files "exp" Samples.run_files
     /\ StronglySorted index_le sorted)
  /\ (forall listing,
        listing ≡ₚ Samples.run_files ->
        load_experiment_results "exp" None "monte_carlo"
          ({[ "monte_carlo/exp" := listing ]} : gmap string (list (string * Z)))
        = Returned [0; 2; 10]).
Proof.
  apply (load_in_run_index_order "exp" None "monte_carlo"
           Samples.run_disk Samples.run_files).
  - reflexivity.
  - repeat (apply List.Forall_cons; [exact I|]). apply List.Forall_nil.
Defined.



End loader_claims.

(** ** The summary *)

Module SummaryFacts.
Import Py Loader Summary LoaderFacts.

Lemma last_default (x : R) rest d d' :
  List.last (x :: rest) d = List.last (x :: rest) d'.
Proof.
  revert x. induction rest as [|y rest IH]; intros x; [done|]. apply (IH y).
Qed.

Lemma final_last_of series :
  series <> [] -> final series = Returned (last_of series).
Proof.
  destruct series as [|x rest]; [done|]. intros _. unfold final, last_of.
  f_equal. destruct rest as [|y rest]; [done|].
  change (List.last (x :: y :: rest) 0%R) with (List.last (y :: rest) 0%R).
  apply last_default.
Qed.

Lemma final_returned series v :
  final series = Returned v -> series <> [] /\ last_of series = v.
Proof.
  intros Hfinal. assert (series <> []) as Hne by by destruct series.
  rewrite (final_last_of _ Hne) in Hfinal. by simplify_eq.
Qed.

(** A complete experiment gives its twelve final values, under the
    twelve keys and in their order. *)
Lemma final_values_of_complete exp :
  complete exp -> final_values_of exp = Returned (finals exp).
Proof.
  unfold complete, metric_series, final_values_of. intros Hall.
  repeat (apply Forall_cons in Hall as [?%final_last_of Hall]).
  repeat (match goal with H : final _ = _ |- _ => rewrite H; clear H end; simpl).
  reflexivity.
Qed.

Lemma dict_get_finals key exp :
  key ∈ metric_names ->
  dict_get key (finals exp) = Returned (value_of key (finals exp)).
Proof.
  unfold metric_names. intros Hkey.
  repeat (apply elem_of_cons in Hkey as [->|Hkey]); try reflexivity.
  by apply elem_of_nil in Hkey.
Qed.

(** One turn of the loop over the keys. *)
Lemma summarise_key_complete key exp exps summary :
  key ∈ metric_names ->
  summarise_key (List.map finals (exp :: exps)) summary key
  = Returned (dict_set key (Metric (column_stats key exp exps)) summary).
Proof.
  intros Hkey. unfold summarise_key.
  rewrite (for_each_returned _ (fun d => value_of key d)).
  2:{ apply Forall_forall. intros d [e [<- _]]%list_elem_of_In%in_map_iff.
      by apply dict_get_finals. }
  simpl. unfold column_stats. by rewrite List.map_map.
Qed.

Lemma fold_each_returned {A S} (f : S -> A -> outcome S) (g : S -> A -> S) l :
  Forall (fun x => forall s, f s x = Returned (g s x)) l ->
  forall s, fold_each f l s = Returned (foldl g s l).
Proof.
  induction 1 as [|x l Hx _ IH]; intros s; [done|].
  simpl. rewrite Hx. simpl. apply IH.
Qed.

(** The summary of one or more complete experiments. *)
Lemma summarise_complete exp exps :
  Forall complete (exp :: exps) ->
  summarise (exp :: exps) = Returned (summary_of exp exps).
Proof.
  intros Hall. unfold summarise.
  rewrite (for_each_returned _ finals).
  2:{ eapply Forall_impl; [exact Hall|]. apply final_values_of_complete. }
  cbn [mbind outcome_bind bind].
  change (fold_each (summarise_key (List.map finals (exp :: exps)))
                    metric_names []
          ≫= (fun summary =>
                Returned (dict_set "num_experiments"
                            (Count (List.length (exp :: exps))) summary))
          = Returned (summary_of exp exps)).
  rewrite (fold_each_returned _
             (fun s key => dict_set key (Metric (column_stats key exp exps)) s)).
  2:{ apply Forall_forall. intros key Hkey s.
      by apply summarise_key_complete. }
  reflexivity.
Qed.

Lemma summary_of_keys exp exps :
  List.map fst (summary_of exp exps) = metric_names ++ ["num_experiments"].
Proof. reflexivity. Qed.

Lemma summary_of_metric key exp exps :
  key ∈ metric_names ->
  dict_get key (summary_of exp exps)
  = Returned (Metric (column_stats key exp exps)).
Proof.
  unfold metric_names. intros Hkey.
  repeat (apply elem_of_cons in Hkey as [->|Hkey]); try reflexivity.
  by apply elem_of_nil in Hkey.
Qed.

(** The three sample runs load in the order of their files. *)
Lemma load_three_runs {A} (a b c : A) :
  load_experiment_results "exp" None "monte_carlo"
    ({[ "monte_carlo/exp" :=
          [("exp_0.pkl", a); ("exp_1.pkl", b); ("exp_2.pkl", c)] ]}
       : gmap string (list (string * A)))
  = Returned [a; b; c].
Proof. vm_compute. reflexivity. Qed.

Lemma load_one_run {A} (a : A) :
  load_experiment_results "exp" None "monte_carlo"
    ({[ "monte_carlo/exp" := [("exp_0.pkl", a)] ]}
       : gmap string (list (string * A)))
  = Returned [a].
Proof. vm_compute. reflexivity. Qed.

Lemma run_with_complete deaths : complete (Samples.run_with deaths).
Proof. unfold complete. simpl. repeat constructor; discriminate. Qed.

End SummaryFacts.

(** ** The statistics of the code and those of the specification *)

Module StatisticsFacts.
Import Py Loader Summary Statistics LoaderFacts SummaryFacts.
Local Open Scope R_scope.

(** [sum] adds from the left, the specification from the right: over the
    real numbers the two agree. *)
Lemma fold_left_plus (xs : list R) (a : R) :
  fold_left Rplus xs a = a + sum_of xs.
Proof.
  revert a. induction xs as [|x xs IH]; intros a; simpl.
  - lra.
  - rewrite IH. lra.
Qed.

Lemma py_sum_sum_of xs : py_sum xs = sum_of xs.
Proof. unfold py_sum. rewrite fold_left_plus. lra. Qed.

(** The smallest and the largest of the values. *)
Lemma py_min_spec x rest :
  In (py_min x rest) (x :: rest)
  /\ forall v, In v (x :: rest) -> py_min x rest <= v.
Proof.
  unfold py_min. revert x. induction rest as [|y rest IH]; intros x.
  - simpl. split; [by left|]. intros v [<-|[]]. lra.
  - cbn [fold_left]. destruct (Rlt_dec y x) as [Hlt|Hge].
    + destruct (IH y) as [Hin Hmin]. split.
      * right. exact Hin.
      * intros v [<-|Hv]; [|by apply Hmin].
        specialize (Hmin y (or_introl eq_refl)). lra.
    + destruct (IH x) as [Hin Hmin]. split.
      * destruct Hin as [<-|Hin]; [by left|right; by right].
      * intros v [<-|[<-|Hv]].
        -- apply Hmin. by left.
        -- specialize (Hmin x (or_introl eq_refl)). lra.
        -- apply Hmin. by right.
Qed.

Lemma py_max_spec x rest :
  In (py_max x rest) (x :: rest)
  /\ forall v, In v (x :: rest) -> v <= py_max x rest.
Proof.
  unfold py_max. revert x. induction rest as [|y rest IH]; intros x.
  - simpl. split; [by left|]. intros v [<-|[]]. lra.
  - cbn [fold_left]. destruct (Rgt_dec y x) as [Hgt|Hle].
    + destruct (IH y) as [Hin Hmax]. split.
      * right. exact Hin.
      * intros v [<-|Hv]; [|by apply Hmax].
        specialize (Hmax y (or_introl eq_refl)). lra.
    + destruct (IH x) as [Hin Hmax]. split.
      * destruct Hin as [<-|Hin]; [by left|right; by right].
      * intros v [<-|[<-|Hv]].
        -- apply Hmax. by left.
        -- specialize (Hmax x (or_introl eq_refl)). lra.
        -- apply Hmax. by right.
Qed.

(** The statistics the code computes are those of the specification. *)
Lemma statistics_spec x rest :
  values (statistics x rest) = x :: rest
  /\ mean (statistics x rest) = arithmetic_mean (x :: rest)
  /\ std (statistics x rest) = population_std (x :: rest)
  /\ is_minimum (min (statistics x rest)) (x :: rest)
  /\ is_maximum (max (statistics x rest)) (x :: rest).
Proof.
  unfold statistics, arithmetic_mean, population_std, is_minimum, is_maximum.
  cbn [values mean std min max].
  rewrite !py_sum_sum_of.
  split; [done|]. split; [done|]. split; [done|].
  split; [apply py_min_spec|apply py_max_spec].
Qed.

(** The value under a key is the last item of the series of the key. *)
Lemma value_of_field key series exp :
  In (key, series) metric_fields ->
  key ∈ metric_names /\ value_of key (finals exp) = last_of (series exp).
Proof.
  unfold metric_fields. intros Hin.
  repeat (destruct Hin as [[= <- <-]|Hin];
          [split; [unfold metric_names; set_solver|reflexivity]|]).
  destruct Hin.
Qed.

(** The final values of a key over complete experiments. *)
Lemma finals_of_field key series exps :
  In (key, series) metric_fields ->
  Forall complete exps ->
  List.map (fun e => final (series e)) exps
  = List.map Returned (List.map (fun e => value_of key (finals e)) exps).
Proof.
  intros Hin Hall. induction Hall as [|e exps He _ IH]; [done|].
  cbn [List.map]. f_equal; [|exact IH].
  destruct (value_of_field key series e Hin) as [_ ->].
  apply final_last_of.
  unfold complete, metric_series in He. unfold metric_fields in Hin.
  repeat (apply Forall_cons in He as [? He]).
  repeat (destruct Hin as [[= <- <-]|Hin]; [done|]).
  destruct Hin.
Qed.

End StatisticsFacts.

(** ** Claims about the summary *)

Section summary_claims.
Import Py Loader Summary Statistics LoaderFacts SummaryFacts StatisticsFacts.
Local Open Scope R_scope.

(** C2, as the code has it.  When the experiments load and each has a
    last item in each of its series, [get_experiment_summary] reads
    twelve final values from each experiment, the last item of each of
    the twelve series of the tuple, the time axis included, by their
    position; the summary it returns holds the statistics of exactly
    these twelve metrics, in the order of the keys, and then
    [num_experiments]. *)
Theorem summary_has_twelve_metrics config_name experiment_folder base_folder
    disk exp exps :
  load_experiment_results config_name experiment_folder base_folder disk
    = Returned (exp :: exps) ->
  Forall complete (exp :: exps) ->
  Forall (fun e => final_values_of e = Returned (finals e)
                   /\ List.map fst (finals e) = metric_names
                   /\ List.map snd (finals e)
                      = List.map last_of (metric_series e))
         (exp :: exps)
  /\ List.length metric_names = 12%nat
  /\ exists summary,
       get_experiment_summary config_name experiment_folder base_folder disk
       = Returned summary
       /\ List.map fst summary = metric_names ++ ["num_experiments"]
       /\ (forall key, key ∈ metric_names ->
             dict_get key summary
             = Returned (Metric (column_stats key exp exps)))
       /\ dict_get "num_experiments" summary
          = Returned (Count (List.length (exp :: exps))).
Proof.
  intros Hload Hall. split; [|split; [done|]].
  - eapply Forall_impl; [exact Hall|]. intros e He.
    split; [by apply final_values_of_complete|done].
  - exists (summary_of exp exps). unfold get_experiment_summary.
    rewrite Hload. cbn [mbind outcome_bind bind].
    split; [by apply summarise_complete|]. split; [done|].
    split; [|done]. intros key Hkey. by apply summary_of_metric.
Qed.

(** C2 on a folder with one run. *)
Lemma summary_has_twelve_metrics_witness :
  Forall (fun e => final_values_of e = Returned (finals e)
                   /\ List.map fst (finals e) = metric_names
                   /\ List.map snd (finals e)
                      = List.map last_of (metric_series e))
         [Samples.run_with 10]
  /\ List.length metric_names = 12%nat
  /\ exists summary,
       get_experiment_summary "exp" None "monte_carlo" Samples.one_run
       = Returned summary
       /\ List.map fst summary = metric_names ++ ["num_experiments"]
       /\ (forall key, key ∈ metric_names ->
             dict_get key summary
             = Returned (Metric (column_stats key (Samples.run_with 10) [])))
       /\ dict_get "num_experiments" summary = Returned (Count 1).
Proof.
  apply (summary_has_twelve_metrics "exp" None "monte_carlo" Samples.one_run
           (Samples.run_with 10) []).
  - apply load_one_run.
  - constructor; [apply run_with_complete|constructor].
Defined.

(** C2 as the claim states it fails on a folder with one run: twelve
    values are read from the run, and the summary holds the statistics
    of twelve metrics, not eleven. *)
Lemma summary_eleven_metrics_counterexample :
  get_experiment_summary "exp" None "monte_carlo" Samples.one_run
  = Returned (summary_of (Samples.run_with 10) [])
  /\ List.length
       (List.filter (fun kv => is_metric (snd kv))
                    (summary_of (Samples.run_with 10) [])) = 12%nat
  /\ final_values_of (Samples.run_with 10)
     = Returned (finals (Samples.run_with 10))
  /\ List.length (finals (Samples.run_with 10)) = 12%nat.
Proof.
  split; [|split; [reflexivity|split; [|reflexivity]]].
  - unfold get_experiment_summary, Samples.one_run. rewrite load_one_run.
    apply summarise_complete. constructor; [apply run_with_complete|constructor].
  - apply final_values_of_complete, run_with_complete.
Qed.

(** C4.  When the experiments load, one at least, and each has a last
    item in each of its series, the summary holds for every key the
    statistics of the final values of its series over the experiments, in
    load order: [values] are these final values, [mean] is their
    arithmetic mean, [std] their population standard deviation (the sum
    of the squares is divided by the number of values, not by one less),
    [min] is one of the values and none is smaller, [max] is one of the
    values and none is larger.  For three experiments whose final
    [total_deaths] are 10, 20 and 30, in this order, [total_deaths] has
    the mean 20, the standard deviation [sqrt (200 / 3)], the minimum 10,
    the maximum 30 and the values 10, 20, 30.  Numbers are exact reals;
    the rounding of Python's floats is left out. *)
Theorem summary_statistics config_name experiment_folder base_folder
    disk exp exps :
  load_experiment_results config_name experiment_folder base_folder disk
    = Returned (exp :: exps) ->
  Forall complete (exp :: exps) ->
  exists summary,
    get_experiment_summary config_name experiment_folder base_folder disk
    = Returned summary
    /\ (forall key series, In (key, series) metric_fields ->
          exists st,
            dict_get key summary = Returned (Metric st)
            /\ List.map (fun e => final (series e)) (exp :: exps)
               = List.map Returned (values st)
            /\ mean st = arithmetic_mean (values st)
            /\ std st = population_std (values st)
            /\ is_minimum (min st) (values st)
            /\ is_maximum (max st) (values st))
    /\ (List.map (fun e => final (total_deaths e)) (exp :: exps)
        = [Returned 10; Returned 20; Returned 30] ->
        dict_get "total_deaths" summary
        = Returned (Metric {| mean := 20; std := sqrt (200 / 3);
                              min := 10; max := 30;
                              values := [10; 20; 30] |})).
Proof.
  intros Hload Hall.
  exists (summary_of exp exps). unfold get_experiment_summary.
  rewrite Hload. cbn [mbind outcome_bind bind].
  split; [by apply summarise_complete|]. split.
  - intros key series Hin.
    destruct (value_of_field key series exp Hin) as [Hkey _].
    exists (column_stats key exp exps).
    split; [by apply summary_of_metric|].
    unfold column_stats.
    destruct (statistics_spec (value_of key (finals exp))
                (List.map (fun e => value_of key (finals e)) exps))
      as (Hv & Hmean & Hstd & Hmin & Hmax).
    rewrite Hv in *. split; [|done].
    by apply (finals_of_field key series (exp :: exps)).
  - intros Hfinals.
    destruct exps as [|e2 [|e3 [|e4 exps]]]; try discriminate Hfinals.
    injection Hfinals as H1 H2 H3.
    apply final_returned in H1 as [_ H1].
    apply final_returned in H2 as [_ H2].
    apply final_returned in H3 as [_ H3].
    rewrite summary_of_metric by (unfold metric_names; set_solver).
    do 2 f_equal. unfold column_stats.
    change (List.map (fun e => value_of "total_deaths" (finals e)) [e2; e3])
      with [last_of (total_deaths e2); last_of (total_deaths e3)].
    change (value_of "total_deaths" (finals exp))
      with (last_of (total_deaths exp)).
    rewrite H1, H2, H3. unfold statistics, py_sum, py_min, py_max. simpl.
    f_equal.
    + lra.
    + f_equal. field.
    + repeat destruct (Rlt_dec _ _); lra.
    + repeat destruct (Rgt_dec _ _); lra.
Qed.

(** C4 on a folder with the three sample runs. *)
Lemma summary_statistics_witness :
  exists summary,
    get_experiment_summary "exp" None "monte_carlo" Samples.three_runs
    = Returned summary
    /\ (forall key series, In (key, series) metric_fields ->
          exists st,
            dict_get key summary = Returned (Metric st)
            /\ List.map (fun e => final (series e))
                 [Samples.run_with 10; Samples.run_with 20; Samples.run_with 30]
               = List.map Returned (values st)
            /\ mean st = arithmetic_mean (values st)
            /\ std st = population_std (values st)
            /\ is_minimum (min st) (values st)
            /\ is_maximum (max st) (values st))
    /\ dict_get "total_deaths" summary
       = Returned (Metric {| mean := 20; std := sqrt (200 / 3);
                             min := 10; max := 30;
                             values := [10; 20; 30] |}).
Proof.
  destruct (summary_statistics "exp" None "monte_carlo" Samples.three_runs
              (Samples.run_with 10) [Samples.run_with 20; Samples.run_with 30])
    as (summary & Hsummary & Hall & Hdeaths).
  - apply load_three_runs.
  - repeat (constructor; [apply run_with_complete|]). constructor.
  - exists summary. split; [exact Hsummary|]. split; [exact Hall|].
    apply Hdeaths. reflexivity.
Defined.

(** C7.  When the folder exists and holds no result file of the
    configuration, [get_experiment_summary] returns the empty dict: no
    exception is raised and nothing is divided. *)
Theorem summary_of_no_results config_name experiment_folder base_folder
    disk entries :
  disk !! resolve_folder config_name experiment_folder base_folder
    = Some entries ->
  result_files config_name entries = [] ->
  get_experiment_summary config_name experiment_folder base_folder disk
  = Returned [].
Proof.
  intros Hdisk Hnone.
  unfold get_experiment_summary, load_experiment_results, result_files in *.
  rewrite Hdisk, Hnone. reflexivity.
Qed.

(** C7 on a folder that holds other files only. *)
Lemma summary_of_no_results_witness :
  get_experiment_summary "exp" None "monte_carlo" Samples.no_run = Returned [].
Proof.
  apply (summary_of_no_results "exp" None "monte_carlo" Samples.no_run
           [("other_0.pkl", Samples.run_with 10);
            ("exp_0.txt", Samples.run_with 20)]).
  - reflexivity.
  - reflexivity.
Defined.

End summary_claims.

(** ** More on the configuration store *)

Module StoreCases.
Import Json Py Store JsonFacts StoreFacts Consistency.

(** What a call does to the world: nothing, or one save of the file. *)
Lemma manage_world c name file overwrite uuid w r w' :
  manage_experiment_config c name file overwrite uuid w = (r, w') ->
  w' = w
  \/ (r = Returned (resolve_name name uuid)
      /\ w' = save file (saved c (resolve_name name uuid) (load_or_new file w)) w).
Proof.
  assert (forall ow,
    name_case (config_dict c) (hash_of (config_dict c)) (resolve_name name uuid)
      file ow (load_or_new file w) w = (r, w') ->
    w' = w
    \/ (r = Returned (resolve_name name uuid)
        /\ w' = save file
                  (saved c (resolve_name name uuid) (load_or_new file w)) w))
    as Hcase.
  { intros ow. unfold name_case, update_and_save, saved, cleaned.
    destruct (name_to_config _ !! resolve_name _ _) as [cfg|] eqn:Hname.
    - case_decide as Hh; [intros [= <- <-]; by left|].
      destruct ow; simpl; [|intros [= <- <-]; by left].
      intros [= <- <-]. right. split; [done|]. do 3 f_equal.
      destruct (config_to_name _ !! hash_of cfg) as [e|] eqn:He.
      + repeat case_decide; congruence.
      + by case_decide.
    - intros [= <- <-]. by right. }
  unfold manage_experiment_config.
  destruct (config_to_name _ !! hash_of (config_dict c)) as [e|]; [|apply Hcase].
  case_decide; [intros [= <- <-]; by left|].
  destruct overwrite; simpl; [apply Hcase|intros [= <- <-]; by left].
Qed.

Lemma cleaned_lookup data name h n :
  cleaned data name !! h = Some n -> config_to_name data !! h = Some n.
Proof.
  unfold cleaned. destruct (name_to_config data !! name) as [cfg|]; [|done].
  case_decide; [|done]. rewrite lookup_delete. by case_decide.
Qed.

(** A call that raises did nothing. *)
Lemma manage_raised_world c name file overwrite uuid w e w' :
  manage_experiment_config c name file overwrite uuid w = (Raised e, w') -> w' = w.
Proof. by intros [->|[[=] _]]%manage_world. Qed.

(** With overwrite on, a call returns the name asked for. *)
Lemma manage_overwrite_returned c name file uuid w r w' :
  manage_experiment_config c name file true uuid w = (r, w') ->
  r = Returned (resolve_name name uuid).
Proof.
  unfold manage_experiment_config, name_case, update_and_save. simpl.
  destruct (config_to_name _ !! hash_of (config_dict c)) as [e|];
    [case_decide; [by intros [= <- <-]|]|];
    (destruct (name_to_config _ !! resolve_name _ _) as [cfg|];
     [case_decide|]; by intros [= <- <-]).
Qed.

(** A call that ends by the [raise] of the source found a name conflict,
    raises the [ValueError] that names the name asked for, and has
    written nothing. *)
Lemma manage_raised_conflict c name file overwrite uuid w e w' :
  manage_experiment_config c name file overwrite uuid w = (Raised e, w') ->
  name_conflict c name file overwrite uuid w
  /\ e = ValueError (name_conflict_message (resolve_name name uuid))
  /\ w' = w.
Proof.
  unfold name_conflict, manage_experiment_config, name_case, update_and_save.
  destruct (config_to_name _ !! hash_of (config_dict c)) as [x|].
  { case_decide; [done|]. destruct overwrite; simpl; [|done].
    destruct (name_to_config _ !! resolve_name _ _) as [cfg|]; [|done].
    by case_decide. }
  destruct (name_to_config _ !! resolve_name _ _) as [cfg|]; [|done].
  case_decide; [done|]. destruct overwrite; simpl; [done|].
  intros [= <- <-]. eauto 10.
Qed.

(** On a name conflict the call raises. *)
Lemma manage_conflict_raises c name file overwrite uuid w :
  name_conflict c name file overwrite uuid w ->
  manage_experiment_config c name file overwrite uuid w
  = (Raised (ValueError (name_conflict_message (resolve_name name uuid))), w).
Proof.
  unfold name_conflict, manage_experiment_config, name_case.
  intros (-> & -> & existing & -> & Hne). by case_decide.
Qed.

(** The ways a call returns a name. *)
Lemma manage_returned_cases c name file overwrite uuid w n w' :
  manage_experiment_config c name file overwrite uuid w = (Returned n, w') ->
  (w' = w
   /\ config_to_name (load_or_new file w) !! hash_of (config_dict c) = Some n)
  \/ (w' = w /\ n = resolve_name name uuid
      /\ exists existing,
           name_to_config (load_or_new file w) !! n = Some existing
           /\ hash_of existing = hash_of (config_dict c))
  \/ (n = resolve_name name uuid
      /\ w' = save file (saved c n (load_or_new file w)) w).
Proof.
  intros Hcall.
  destruct (manage_world _ _ _ _ _ _ _ _ Hcall) as [->|([= <-] & ->)];
    [|by right; right].
  revert Hcall.
  unfold manage_experiment_config, name_case, update_and_save.
  assert (forall data, save file data w <> w) as Hsave.
  { intros data Heq. apply (f_equal (fun x => List.length (write_log x))) in Heq.
    unfold save in Heq. simpl in Heq. rewrite length_app in Heq. simpl in Heq. lia. }
  assert (match name_to_config (load_or_new file w) !! resolve_name name uuid with
          | Some existing_config =>
              if decide (hash_of existing_config = hash_of (config_dict c))
              then (Returned (resolve_name name uuid), w)
              else if negb overwrite
                   then (Raised (ValueError
                                   (name_conflict_message (resolve_name name uuid))), w)
                   else (Returned (resolve_name name uuid),
                         save file
                           {| name_to_config :=
                                <[resolve_name name uuid := config_dict c]>
                                  (name_to_config (load_or_new file w));
                              config_to_name :=
                                <[hash_of (config_dict c) := resolve_name name uuid]>
                                  (match config_to_name (load_or_new file w)
                                           !! hash_of existing_config with
                                   | Some n0 =>
                                       if decide (n0 = resolve_name name uuid)
                                       then delete (hash_of existing_config)
                                              (config_to_name (load_or_new file w))
                                       else config_to_name (load_or_new file w)
                                   | None => config_to_name (load_or_new file w)
                                   end) |} w)
          | None =>
              (Returned (resolve_name name uuid),
               save file
                 {| name_to_config :=
                      <[resolve_name name uuid := config_dict c]>
                        (name_to_config (load_or_new file w));
                    config_to_name :=
                      <[hash_of (config_dict c) := resolve_name name uuid]>
                        (config_to_name (load_or_new file w)) |} w)
          end = (Returned n, w) ->
          n = resolve_name name uuid
          /\ exists existing,
               name_to_config (load_or_new file w) !! n = Some existing
               /\ hash_of existing = hash_of (config_dict c)) as Hcase.
  { destruct (name_to_config _ !! resolve_name _ _) as [cfg|] eqn:Hname.
    - case_decide.
      + intros [= <-]. eauto.
      + destruct overwrite; simpl; [|done]. intros [= _ Hw]. by apply Hsave in Hw.
    - intros [= _ Hw]. by apply Hsave in Hw. }
  destruct (config_to_name _ !! hash_of (config_dict c)) as [e|].
  - case_decide; [intros [= <-]; left; by subst|].
    destruct overwrite; simpl; [|intros [= <-]; by left].
    intros H'. right. left. split; [done|]. by apply Hcase.
  - intros H'. right. left. split; [done|]. by apply Hcase.
Qed.

Lemma get_name_load c file w :
  get_name_by_config c file w
  = config_to_name (load_or_new file w) !! hash_of (config_dict c).
Proof.
  unfold get_name_by_config, load_or_new. by destruct (files w !! file).
Qed.

Lemma get_config_load name file w cfg :
  name_to_config (load_or_new file w) !! name = Some cfg ->
  get_config_by_name name file w = Returned cfg.
Proof.
  unfold get_config_by_name, load_or_new.
  destruct (files w !! file); [by intros ->|done].
Qed.

End StoreCases.

Section store_properties.
Import Json Py Store JsonFacts StoreFacts Consistency StoreCases.

(** X1.  A name that is not bound yet, for a configuration whose hash is
    not mapped (or is mapped to another name, with overwrite on): the
    call returns the name and saves the store with the two new entries
    and nothing else changed; the name then reads back as the
    configuration, the configuration as the name, and the other names
    list as before. *)
Theorem manage_saves_new_entry c name file overwrite uuid w :
  name_to_config (load_or_new file w) !! resolve_name name uuid = None ->
  config_to_name (load_or_new file w) !! hash_of (config_dict c) = None
    \/ (overwrite = true
        /\ config_to_name (load_or_new file w) !! hash_of (config_dict c)
           <> Some (resolve_name name uuid)) ->
  exists w',
    manage_experiment_config c name file overwrite uuid w
    = (Returned (resolve_name name uuid), w')
    /\ w' = save file
              {| name_to_config :=
                   <[resolve_name name uuid := config_dict c]>
                     (name_to_config (load_or_new file w));
                 config_to_name :=
                   <[hash_of (config_dict c) := resolve_name name uuid]>
                     (config_to_name (load_or_new file w)) |} w
    /\ get_config_by_name (resolve_name name uuid) file w'
       = Returned (config_dict c)
    /\ get_name_by_config c file w' = Some (resolve_name name uuid)
    /\ (forall other, other <> resolve_name name uuid ->
          list_all_configs file w' !! other = list_all_configs file w !! other).
Proof.
  intros Hname Hhash. eexists. split; [|split; [reflexivity|]].
  - unfold manage_experiment_config, name_case, update_and_save.
    rewrite Hname.
    destruct Hhash as [->|[-> Hne]]; [done|].
    destruct (config_to_name _ !! hash_of _) as [e|]; [|done].
    case_decide; [congruence|done].
  - unfold get_config_by_name, get_name_by_config, list_all_configs, save.
    simpl. rewrite !lookup_insert_eq. simpl. rewrite !lookup_insert_eq.
    split; [done|]. split; [done|].
    intros other Hother. rewrite lookup_insert_ne by done.
    unfold load_or_new. by destruct (files w !! file).
Qed.

(** X2.  A name that already holds a configuration of the same hash,
    while the hash itself is not mapped to that name (it is unmapped, or,
    with overwrite on, mapped to another name): the call returns the name
    and writes nothing, so afterwards [get_name_by_config] still does not
    answer that name for the configuration that was just accepted. *)
Theorem manage_leaves_hash_unmapped c name file overwrite uuid w existing :
  name_to_config (load_or_new file w) !! resolve_name name uuid = Some existing ->
  hash_of existing = hash_of (config_dict c) ->
  config_to_name (load_or_new file w) !! hash_of (config_dict c)
    <> Some (resolve_name name uuid) ->
  overwrite = true
    \/ config_to_name (load_or_new file w) !! hash_of (config_dict c) = None ->
  manage_experiment_config c name file overwrite uuid w
  = (Returned (resolve_name name uuid), w)
  /\ get_name_by_config c file w <> Some (resolve_name name uuid).
Proof.
  intros Hname Hsame Hne Hor. split; [|by rewrite get_name_load].
  unfold manage_experiment_config, name_case. rewrite Hname.
  destruct (config_to_name _ !! hash_of (config_dict c)) as [e|].
  - destruct Hor as [->|]; [|done].
    case_decide; [congruence|]. simpl. by case_decide.
  - by case_decide.
Qed.

(** X3.  With overwrite on, a call does not end by the name-conflict
    [ValueError], whatever the name in its message, and a name it returns
    is the one asked for (or drawn), never another name that the hash of
    the configuration is stored under. *)
Theorem manage_overwrite_answers_requested c name file uuid w r w' :
  manage_experiment_config c name file true uuid w = (r, w') ->
  (forall n, r <> Raised (ValueError (name_conflict_message n)))
  /\ (forall n, r = Returned n -> n = resolve_name name uuid).
Proof.
  intros ->%manage_overwrite_returned. split; [done|]. by intros n [= <-].
Qed.

(** X4.  The name-conflict [ValueError] for the name asked for (or
    drawn) is raised only on a name conflict, that is when overwrite is
    off, the hash of the configuration is not mapped and the name is bound
    to a configuration of another hash, and it is raised before anything
    is written; on a name conflict the call returns no name. *)
Theorem manage_conflict_error_only_on_conflict c name file overwrite uuid w :
  (forall w',
     manage_experiment_config c name file overwrite uuid w
     = (Raised (ValueError (name_conflict_message (resolve_name name uuid))), w') ->
     name_conflict c name file overwrite uuid w /\ w' = w)
  /\ (name_conflict c name file overwrite uuid w ->
      ~ is_returned
          (fst (manage_experiment_config c name file overwrite uuid w))).
Proof.
  split.
  - intros w' (Hconflict & _ & ->)%manage_raised_conflict. done.
  - intros Hconflict. rewrite (manage_conflict_raises _ _ _ _ _ _ Hconflict).
    by intros [].
Qed.

(** X5.  A call repeated with the same arguments (the same name, asked
    for or drawn) answers as the first did and changes nothing, whatever
    the first did and whatever the overwrite flag. *)
Theorem manage_idempotent c name file overwrite uuid w r w1 :
  manage_experiment_config c name file overwrite uuid w = (r, w1) ->
  manage_experiment_config c name file overwrite uuid w1 = (r, w1).
Proof.
  intros Hcall.
  destruct (manage_world _ _ _ _ _ _ _ _ Hcall) as [->|(-> & ->)]; [done|].
  unfold manage_experiment_config. rewrite load_or_new_save. simpl.
  rewrite lookup_insert_eq. by case_decide.
Qed.

(** X6.  A call touches no other file than [config_file], writes at most
    once, and to that file. *)
Theorem manage_frame c name file overwrite uuid w r w' :
  manage_experiment_config c name file overwrite uuid w = (r, w') ->
  (forall other, other <> file -> files w' !! other = files w !! other)
  /\ (write_log w' = write_log w
      \/ exists data, write_log w' = write_log w ++ [(file, data)]
                      /\ files w' !! file = Some data).
Proof.
  intros [->|(_ & ->)]%manage_world.
  - split; [done|by left].
  - split.
    + intros other Hother. unfold save. simpl. by rewrite lookup_insert_ne.
    + right. eexists. split; [reflexivity|].
      unfold save. simpl. by rewrite lookup_insert_eq.
Qed.

(** X7.  Every call keeps [hash_consistent]: after it, as before it,
    each hash that is mapped points at a name holding a configuration of
    that hash.  (The cleanup of the overwrite path is what keeps it.) *)
Theorem manage_preserves_hash_consistent c name file overwrite uuid w r w' :
  hash_consistent (load_or_new file w) ->
  manage_experiment_config c name file overwrite uuid w = (r, w') ->
  hash_consistent (load_or_new file w').
Proof.
  intros Hinv [->|(_ & ->)]%manage_world; [done|].
  rewrite load_or_new_save. intros h n. unfold saved. simpl.
  rewrite lookup_insert. case_decide as Hh.
  - intros [= <-]. rewrite lookup_insert_eq. eauto.
  - intros Hhn. pose proof (cleaned_lookup _ _ _ _ Hhn) as Hold.
    destruct (Hinv _ _ Hold) as (cfg & Hn & Hcfg).
    rewrite lookup_insert. case_decide as Hname; [|eauto].
    subst n. exfalso. revert Hhn. unfold cleaned. rewrite Hn, Hcfg.
    case_decide; [|done]. by rewrite lookup_delete_eq.
Qed.

(** X8.  In a consistent store, the name a call returns holds, after
    the call, a configuration with the hash of the one that was passed:
    [get_config_by_name] on the returned name gives it. *)
Theorem manage_returned_name_resolves c name file overwrite uuid w n w' :
  hash_consistent (load_or_new file w) ->
  manage_experiment_config c name file overwrite uuid w = (Returned n, w') ->
  exists config,
    get_config_by_name n file w' = Returned config
    /\ hash_of config = hash_of (config_dict c).
Proof.
  intros Hinv [(-> & Hmap)|[(-> & -> & cfg & Hname & Hcfg)|(-> & ->)]]%manage_returned_cases.
  - destruct (Hinv _ _ Hmap) as (cfg & Hname & Hcfg).
    exists cfg. split; [by apply get_config_load|done].
  - exists cfg. split; [by apply get_config_load|done].
  - exists (config_dict c). split; [|done].
    apply get_config_load. rewrite load_or_new_save. simpl.
    by rewrite lookup_insert_eq.
Qed.

(** X9.  The store does not look at the insertion order of the keys of
    a configuration: for two well-formed configurations equal field by
    field, [get_name_by_config] answers the same in every world, and
    [manage_experiment_config] returns the same name, or raises the same
    exception, in every world. *)
Theorem store_ignores_key_order c1 c2 :
  config_well_formed c1 -> config_well_formed c2 -> config_eqb c1 c2 = true ->
  (forall file w, get_name_by_config c1 file w = get_name_by_config c2 file w)
  /\ (forall name file overwrite uuid w,
        fst (manage_experiment_config c1 name file overwrite uuid w)
        = fst (manage_experiment_config c2 name file overwrite uuid w)).
Proof.
  intros W1 W2 Heq. pose proof (config_eqb_hash _ _ W1 W2 Heq) as Hh. split.
  - intros file w. by rewrite !get_name_load, Hh.
  - intros name file overwrite uuid w.
    unfold manage_experiment_config, name_case, update_and_save. rewrite Hh.
    destruct overwrite; simpl;
      (destruct (config_to_name _ !! hash_of (config_dict c2)) as [e|];
       [case_decide; [done|]|]); try done;
      (destruct (name_to_config _ !! resolve_name _ _) as [cfg|]; [|done];
       by case_decide).
Qed.

(** X10.  Overwriting replaces and forgets: when the name holds an old
    configuration whose hash points at the name, and a configuration of
    another hash is saved under the name with overwrite on, the name then
    reads back as the new configuration, the new configuration as the
    name, and the old configuration is not found any more. *)
Theorem manage_overwrite_forgets_old c_old c name file uuid w :
  name_to_config (load_or_new file w) !! resolve_name name uuid
    = Some (config_dict c_old) ->
  config_to_name (load_or_new file w) !! hash_of (config_dict c_old)
    = Some (resolve_name name uuid) ->
  hash_of (config_dict c_old) <> hash_of (config_dict c) ->
  config_to_name (load_or_new file w) !! hash_of (config_dict c)
    <> Some (resolve_name name uuid) ->
  exists w',
    manage_experiment_config c name file true uuid w
    = (Returned (resolve_name name uuid), w')
    /\ get_config_by_name (resolve_name name uuid) file w'
       = Returned (config_dict c)
    /\ get_name_by_config c file w' = Some (resolve_name name uuid)
    /\ get_name_by_config c_old file w' = None.
Proof.
  intros Hname Hold Hdiff Hne.
  destruct (manage_experiment_config c name file true uuid w) as [r w'] eqn:Hcall.
  pose proof (manage_overwrite_returned _ _ _ _ _ _ _ Hcall) as ->.
  exists w'. split; [done|].
  apply manage_returned_cases in Hcall
    as [(_ & Hmap)|[(_ & _ & cfg & Hcfg & Hsame)|(_ & ->)]].
  - congruence.
  - rewrite Hname in Hcfg. congruence.
  - rewrite !get_name_load, load_or_new_save. unfold saved, cleaned. simpl.
    rewrite Hname. rewrite decide_True by done.
    split; [|split].
    + apply get_config_load. rewrite load_or_new_save. simpl.
      by rewrite lookup_insert_eq.
    + by rewrite lookup_insert_eq.
    + rewrite lookup_insert_ne by done. by rewrite lookup_delete_eq.
Qed.

(** *** Runs on the sample data *)

Lemma empty_world_consistent file : hash_consistent (load_or_new file empty_world).
Proof.
  intros h n. unfold load_or_new, empty_world. simpl.
  rewrite lookup_empty. simpl. by rewrite lookup_empty.
Qed.

(** X1 in [world_a]: [config_b] is saved as "b". *)
Lemma manage_saves_new_entry_witness :
  exists w',
    manage_experiment_config Samples.config_b (Some "b") Samples.config_file
      false Samples.uuid_hex Samples.world_a = (Returned "b", w')
    /\ get_config_by_name "b" Samples.config_file w'
       = Returned (config_dict Samples.config_b)
    /\ get_name_by_config Samples.config_b Samples.config_file w' = Some "b".
Proof.
  destruct (manage_saves_new_entry Samples.config_b (Some "b")
              Samples.config_file false Samples.uuid_hex Samples.world_a)
    as (w' & Hcall & _ & Hconfig & Hname & _).
  - vm_cast_no_check (eq_refl (@None json)).
  - left. vm_cast_no_check (eq_refl (@None string)).
  - exists w'. auto.
Defined.

(** X2 in [world_unmapped]: "a" holds [config_a], whose hash is not
    mapped. *)
Lemma manage_leaves_hash_unmapped_witness :
  manage_experiment_config Samples.config_a (Some "a") Samples.config_file
    true Samples.uuid_hex Samples.world_unmapped
  = (Returned "a", Samples.world_unmapped)
  /\ get_name_by_config Samples.config_a Samples.config_file
       Samples.world_unmapped <> Some "a".
Proof.
  apply (manage_leaves_hash_unmapped Samples.config_a (Some "a")
           Samples.config_file true Samples.uuid_hex Samples.world_unmapped
           (config_dict Samples.config_a)).
  - vm_cast_no_check (eq_refl (Some (config_dict Samples.config_a))).
  - reflexivity.
  - intros H. vm_compute in H. discriminate.
  - by left.
Defined.

(** X3 in [world_a]: [config_b] asks for "a" with overwrite on. *)
Lemma manage_overwrite_answers_requested_witness :
  (forall n,
     fst (manage_experiment_config Samples.config_b (Some "a")
            Samples.config_file true Samples.uuid_hex Samples.world_a)
     <> Raised (ValueError (name_conflict_message n)))
  /\ (forall n,
        fst (manage_experiment_config Samples.config_b (Some "a")
               Samples.config_file true Samples.uuid_hex Samples.world_a)
        = Returned n -> n = "a").
Proof.
  apply (manage_overwrite_answers_requested Samples.config_b (Some "a")
           Samples.config_file Samples.uuid_hex Samples.world_a _
           (snd (manage_experiment_config Samples.config_b (Some "a")
                   Samples.config_file true Samples.uuid_hex Samples.world_a))).
  apply surjective_pairing.
Defined.

(** X4 in [world_a]: [config_b] asks for "a" with overwrite off. *)
Lemma manage_conflict_error_only_on_conflict_witness :
  ~ is_returned
      (fst (manage_experiment_config Samples.config_b (Some "a")
              Samples.config_file false Samples.uuid_hex Samples.world_a)).
Proof.
  apply (manage_conflict_error_only_on_conflict Samples.config_b (Some "a")
           Samples.config_file false Samples.uuid_hex Samples.world_a).
  split; [done|]. split.
  - vm_cast_no_check (eq_refl (@None string)).
  - exists (config_dict Samples.config_a). split.
    + vm_cast_no_check (eq_refl (Some (config_dict Samples.config_a))).
    + intros H. vm_compute in H. discriminate.
Defined.

(** X5 for the call that made [world_a]. *)
Lemma manage_idempotent_witness :
  manage_experiment_config Samples.config_a (Some "a") Samples.config_file
    false Samples.uuid_hex Samples.world_a
  = (Returned "a", Samples.world_a).
Proof.
  apply (manage_idempotent Samples.config_a (Some "a") Samples.config_file
           false Samples.uuid_hex empty_world).
  vm_cast_no_check (eq_refl (Returned "a", Samples.world_a)).
Defined.

(** X6 for the call that made [world_a]. *)
Lemma manage_frame_witness :
  (forall other, other <> Samples.config_file ->
     files Samples.world_a !! other = files empty_world !! other)
  /\ (write_log Samples.world_a = write_log empty_world
      \/ exists data,
           write_log Samples.world_a
           = write_log empty_world ++ [(Samples.config_file, data)]
           /\ files Samples.world_a !! Samples.config_file = Some data).
Proof.
  apply (manage_frame Samples.config_a (Some "a") Samples.config_file
           false Samples.uuid_hex empty_world (Returned "a")).
  vm_cast_no_check (eq_refl (Returned "a", Samples.world_a)).
Defined.

(** X7 for the call that made [world_a]. *)
Lemma manage_preserves_hash_consistent_witness :
  hash_consistent (load_or_new Samples.config_file Samples.world_a).
Proof.
  apply (manage_preserves_hash_consistent Samples.config_a (Some "a")
           Samples.config_file false Samples.uuid_hex empty_world (Returned "a")).
  - apply empty_world_consistent.
  - vm_cast_no_check (eq_refl (Returned "a", Samples.world_a)).
Defined.

(** X8 for the call that made [world_a]. *)
Lemma manage_returned_name_resolves_witness :
  exists config,
    get_config_by_name "a" Samples.config_file Samples.world_a = Returned config
    /\ hash_of config = hash_of (config_dict Samples.config_a).
Proof.
  apply (manage_returned_name_resolves Samples.config_a (Some "a")
           Samples.config_file false Samples.uuid_hex empty_world).
  - apply empty_world_consistent.
  - vm_cast_no_check (eq_refl (Returned "a", Samples.world_a)).
Defined.

(** X9 for [config_a] and [config_a_swapped]. *)
Lemma store_ignores_key_order_witness :
  (forall file w,
     get_name_by_config Samples.config_a file w
     = get_name_by_config Samples.config_a_swapped file w)
  /\ (forall name file overwrite uuid w,
        fst (manage_experiment_config Samples.config_a name file overwrite uuid w)
        = fst (manage_experiment_config Samples.config_a_swapped name file
                 overwrite uuid w)).
Proof.
  apply (store_ignores_key_order Samples.config_a Samples.config_a_swapped).
  - apply sample_configs_well_formed.
  - apply sample_configs_well_formed.
  - vm_compute. reflexivity.
Defined.

(** X10 in [world_a]: [config_b] overwrites "a". *)
Lemma manage_overwrite_forgets_old_witness :
  exists w',
    manage_experiment_config Samples.config_b (Some "a") Samples.config_file
      true Samples.uuid_hex Samples.world_a = (Returned "a", w')
    /\ get_config_by_name "a" Samples.config_file w'
       = Returned (config_dict Samples.config_b)
    /\ get_name_by_config Samples.config_b Samples.config_file w' = Some "a"
    /\ get_name_by_config Samples.config_a Samples.config_file w' = None.
Proof.
  apply (manage_overwrite_forgets_old Samples.config_a Samples.config_b
           (Some "a") Samples.config_file Samples.uuid_hex Samples.world_a).
  - vm_cast_no_check (eq_refl (Some (config_dict Samples.config_a))).
  - vm_cast_no_check (eq_refl (Some "a")).
  - intros H. vm_compute in H. discriminate.
  - intros H. vm_compute in H. discriminate.
Defined.

End store_properties.

(** ** More on the loader *)

Module TextFacts.
Import Py Loader LoaderFacts Chars.

Lemma all_chars_app p a b :
  all_chars p (a +:+ b) = all_chars p a && all_chars p b.
Proof.
  induction a as [|c a IH]; simpl; [done|]. by rewrite IH, andb_assoc.
Qed.

Lemma split_nonempty sep s : split sep s <> [].
Proof.
  destruct s as [|c s]; simpl; [done|].
  destruct (Ascii.eqb c sep); [done|]. by destruct (split sep s).
Qed.

(** A text without the separator is one part. *)
Lemma split_without sep s : without sep s = true -> split sep s = [s].
Proof.
  unfold without. induction s as [|c s IH]; simpl; [done|].
  intros [Hc Hs]%andb_true_iff. apply negb_true_iff in Hc.
  by rewrite Hc, IH.
Qed.

(** The first part ends at the first separator. *)
Lemma split_first sep a b :
  without sep a = true -> split sep (a +:+ String sep b) = a :: split sep b.
Proof.
  unfold without. induction a as [|c a IH]; simpl.
  - intros _. by rewrite Ascii.eqb_refl.
  - intros [Hc Ha]%andb_true_iff. apply negb_true_iff in Hc.
    by rewrite Hc, IH.
Qed.

Lemma split_two_parts sep a b :
  (1 < List.length (split sep (a +:+ String sep b)))%nat.
Proof.
  induction a as [|c a IH]; simpl.
  - rewrite Ascii.eqb_refl. simpl.
    pose proof (split_nonempty sep b). destruct (split sep b); [done|simpl; lia].
  - destruct (Ascii.eqb c sep); simpl; [lia|].
    destruct (split sep (a +:+ String sep b)); simpl in *; lia.
Qed.

Lemma last_cons (x : string) l d : l <> [] -> List.last (x :: l) d = List.last l d.
Proof. by destruct l. Qed.

(** The last part starts after the last separator. *)
Lemma split_last sep a b :
  last_part (split sep (a +:+ String sep b)) = last_part (split sep b).
Proof.
  unfold last_part. induction a as [|c a IH]; simpl.
  - rewrite Ascii.eqb_refl. apply last_cons, split_nonempty.
  - destruct (Ascii.eqb c sep).
    + rewrite last_cons by apply split_nonempty. done.
    + pose proof (split_two_parts sep a b) as Hlen.
      destruct (split sep (a +:+ String sep b)) as [|part [|part' parts]];
        simpl in Hlen; try lia.
      rewrite <- IH. done.
Qed.

Lemma prefix_app a b : String.prefix a (a +:+ b) = true.
Proof.
  induction a as [|c a IH]; simpl; [by destruct b|].
  by destruct (ascii_dec c c).
Qed.

Lemma prefix_app_l a b s :
  String.prefix (a +:+ b) s = true -> String.prefix a s = true.
Proof.
  revert s. induction a as [|c a IH]; intros [|c' s]; simpl; try done.
  destruct (ascii_dec c c'); [apply IH|done].
Qed.

Lemma append_assoc a b c : (a +:+ b) +:+ c = a +:+ (b +:+ c).
Proof.
  induction a as [|x a IH]; [done|].
  change (String x ((a +:+ b) +:+ c) = String x (a +:+ (b +:+ c))). by f_equal.
Qed.

Lemma length_append a b :
  String.length (a +:+ b) = (String.length a + String.length b)%nat.
Proof.
  induction a as [|x a IH]; [done|].
  change (S (String.length (a +:+ b)) = S (String.length a + String.length b)).
  by f_equal.
Qed.

Lemma substring_append_all a b :
  substring (String.length a) (String.length b) (a +:+ b) = b.
Proof.
  induction a as [|x a IH]; [|exact IH].
  change (substring 0 (String.length b) b = b).
  induction b as [|y b IHb]; simpl; [done|]. by rewrite IHb.
Qed.

Lemma endswith_app a b : endswith (a +:+ b) b = true.
Proof.
  unfold endswith. rewrite length_append.
  replace (String.length a + String.length b - String.length b)%nat
    with (String.length a) by lia.
  rewrite substring_append_all, String.eqb_refl.
  apply andb_true_iff. split; [|done]. apply Nat.leb_le. lia.
Qed.

(** *** [int] reads what [str] prints *)

Lemma digits_value_acc u acc :
  digits_value (Z.pos acc) (DecimalString.NilEmpty.string_of_uint u)
  = Some (Z.pos (Pos.of_uint_acc u acc)).
Proof.
  revert acc. induction u; intros acc; simpl; [done|..];
    match goal with
    | |- digits_value ?z _ = Some (Z.pos (Pos.of_uint_acc _ ?p)) =>
        replace z with (Z.pos p) by (unfold Text.code; simpl N_of_ascii; lia); apply IHu
    end.
Qed.

Lemma digits_value_uint u :
  digits_value 0 (DecimalString.NilEmpty.string_of_uint u)
  = Some (Z.of_N (Pos.of_uint u)).
Proof.
  induction u; simpl; [done|exact IHu|..];
    match goal with
    | |- digits_value ?z _ = _ => apply (digits_value_acc u (Z.to_pos z))
    end.
Qed.

Lemma digits_of_uint u :
  all_chars is_digit (DecimalString.NilEmpty.string_of_uint u) = true.
Proof. induction u; simpl; by try rewrite IHu. Qed.

Lemma digit_not_space c : is_digit c = true -> is_space c = false.
Proof.
  unfold is_digit, digit_value, is_space.
  destruct (_ && _) eqn:Hd; [|done]. intros _.
  apply andb_true_iff in Hd as [H1%Z.leb_le H2%Z.leb_le].
  repeat (apply orb_false_iff; split); try apply andb_false_iff;
    rewrite ?Z.leb_gt, ?Z.eqb_neq; lia.
Qed.

Lemma rstrip_digits s : all_chars is_digit s = true -> rstrip s = s.
Proof.
  induction s as [|c s IH]; simpl; [done|].
  intros [Hc Hs]%andb_true_iff. rewrite (IH Hs).
  destruct s; [by rewrite (digit_not_space _ Hc)|done].
Qed.

Lemma lstrip_digits s : all_chars is_digit s = true -> lstrip s = s.
Proof.
  destruct s as [|c s]; simpl; [done|].
  intros [Hc _]%andb_true_iff. by rewrite (digit_not_space _ Hc).
Qed.

(** [int] of the digits of a positive number. *)
Lemma py_int_pos p :
  py_int (DecimalString.NilEmpty.string_of_uint (Pos.to_uint p))
  = Returned (Z.pos p).
Proof.
  pose proof (digits_of_uint (Pos.to_uint p)) as Hd.
  pose proof (digits_value_uint (Pos.to_uint p)) as Hv.
  rewrite DecimalPos.Unsigned.of_to in Hv.
  pose proof (DecimalPos.Unsigned.to_uint_nonnil p) as Hnil.
  unfold py_int. rewrite lstrip_digits, rstrip_digits by done.
  destruct (DecimalString.NilEmpty.string_of_uint (Pos.to_uint p))
    as [|c s] eqn:Hs.
  { by destruct (Pos.to_uint p). }
  simpl in Hd. apply andb_true_iff in Hd as [Hc _].
  assert (Ascii.eqb c "-" = false /\ Ascii.eqb c "+" = false) as [-> ->].
  { unfold is_digit, digit_value in Hc.
    destruct (_ && _) eqn:Hr; [|done].
    apply andb_true_iff in Hr as [H1%Z.leb_le H2%Z.leb_le].
    split; apply Ascii.eqb_neq; intros ->; vm_compute in H1; by destruct H1. }
  by rewrite Hv.
Qed.

End TextFacts.

Module SortFacts.
Import Py Loader LoaderFacts Chars TextFacts.

(** [str] prints digits, after a minus sign for a negative number. *)
Lemma str_of_Z_chars n :
  all_chars (fun c => is_digit c || Ascii.eqb c "-") (Text.str_of_Z n) = true.
Proof.
  assert (forall u, all_chars (fun c => is_digit c || Ascii.eqb c "-")
                      (DecimalString.NilZero.string_of_uint u) = true) as Hu.
  { intros u. unfold DecimalString.NilZero.string_of_uint.
    destruct u; try done;
      (match goal with
       | |- all_chars _ (DecimalString.NilEmpty.string_of_uint ?d) = true =>
           pose proof (digits_of_uint d) as Hd; revert Hd;
           generalize (DecimalString.NilEmpty.string_of_uint d)
       end;
       induction s as [|c s IH]; simpl; [done|];
       intros [-> ?]%andb_true_iff; simpl; auto). }
  unfold Text.str_of_Z, DecimalString.NilZero.string_of_int.
  destruct (Z.to_int n); [apply Hu|]. simpl. apply Hu.
Qed.

Lemma all_chars_impl (p q : ascii -> bool) s :
  (forall c, p c = true -> q c = true) ->
  all_chars p s = true -> all_chars q s = true.
Proof.
  intros Hpq. induction s as [|c s IH]; simpl; [done|].
  intros [Hc Hs]%andb_true_iff. by rewrite (Hpq _ Hc), IH.
Qed.

Lemma str_of_Z_without c n :
  is_digit c = false -> Ascii.eqb c "-" = false ->
  without c (Text.str_of_Z n) = true.
Proof.
  intros Hd Hm. unfold without.
  eapply all_chars_impl; [|apply str_of_Z_chars].
  intros x Hx. apply negb_true_iff, Ascii.eqb_neq. intros ->.
  by rewrite Hd, Hm in Hx.
Qed.

(** [int] of a minus sign and digits. *)
Lemma py_int_minus d v :
  all_chars is_digit d = true -> d <> EmptyString ->
  digits_value 0 d = Some v ->
  py_int (String "-" d) = Returned (- v).
Proof.
  intros Hd Hne Hv. unfold py_int.
  assert (rstrip (lstrip (String "-" d)) = String "-" d) as ->.
  { change (lstrip (String "-" d)) with (String "-" d).
    change (rstrip (String "-" d))
      with (match rstrip d with
            | EmptyString =>
                if is_space "-" then EmptyString else String "-" EmptyString
            | String c rest => String "-" (String c rest)
            end).
    rewrite (rstrip_digits _ Hd). by destruct d. }
  change (Ascii.eqb "-" "-") with true. cbn iota.
  destruct d; [done|]. by rewrite Hv.
Qed.

(** [int(str(n))] is [n]. *)
Lemma py_int_str n : py_int (Text.str_of_Z n) = Returned n.
Proof.
  unfold Text.str_of_Z. destruct n as [|p|p]; [done| |];
    unfold Z.to_int, DecimalString.NilZero.string_of_int,
      DecimalString.NilZero.string_of_uint;
    pose proof (DecimalPos.Unsigned.to_uint_nonnil p) as Hnil.
  - pose proof (py_int_pos p). by destruct (Pos.to_uint p).
  - pose proof (digits_of_uint (Pos.to_uint p)) as Hd.
    pose proof (digits_value_uint (Pos.to_uint p)) as Hv.
    rewrite DecimalPos.Unsigned.of_to in Hv.
    assert (match Pos.to_uint p with
            | Decimal.Nil => "0"
            | _ => DecimalString.NilEmpty.string_of_uint (Pos.to_uint p)
            end = DecimalString.NilEmpty.string_of_uint (Pos.to_uint p)) as ->
      by by destruct (Pos.to_uint p).
    apply (py_int_minus _ (Z.pos p)); [done| |done].
    by destruct (Pos.to_uint p).
Qed.

(** The index text of a name: after the last underscore, up to the next
    dot. *)
Lemma index_text_parts prefix segment rest :
  without "_" segment = true -> without "." segment = true ->
  without "_" rest = true ->
  index_text (prefix +:+ "_" +:+ segment +:+ "." +:+ rest) = segment.
Proof.
  intros Hu Hd Hr. unfold index_text.
  change (prefix +:+ "_" +:+ segment +:+ "." +:+ rest)
    with (prefix +:+ String "_" (segment +:+ String "." rest)).
  rewrite split_last.
  rewrite (split_without "_" (segment +:+ String "." rest)).
  2:{ unfold without in *. rewrite all_chars_app. simpl.
      by rewrite Hu, Hr. }
  unfold last_part. simpl. by rewrite split_first.
Qed.

(** *** Stability of the sort *)

Lemma insert_keyed_filter {X} (z : Z) (kx : Z * X) l :
  List.filter (fun ky => fst ky =? z) (insert_keyed kx l)
  = List.filter (fun ky => fst ky =? z) (kx :: l).
Proof.
  induction l as [|ky l IH]; [done|]. cbn [insert_keyed].
  destruct (Z.leb_spec (fst kx) (fst ky)) as [Hle|Hlt]; [done|].
  cbn [List.filter] in *. rewrite IH.
  destruct (Z.eqb_spec (fst kx) z), (Z.eqb_spec (fst ky) z); try done. lia.
Qed.

Lemma sort_keyed_filter {X} (z : Z) (l : list (Z * X)) :
  List.filter (fun ky => fst ky =? z) (foldr insert_keyed [] l)
  = List.filter (fun ky => fst ky =? z) l.
Proof.
  induction l as [|kx l IH]; [done|]. cbn [foldr].
  rewrite insert_keyed_filter. cbn [List.filter]. by rewrite IH.
Qed.

Lemma filter_map_snd {X} (k : X -> Z) (z : Z) (l : list (Z * X)) :
  Forall (fun kx => fst kx = k (snd kx)) l ->
  List.filter (fun x => k x =? z) (List.map snd l)
  = List.map snd (List.filter (fun kx => fst kx =? z) l).
Proof.
  induction 1 as [|kx l Hkx _ IH]; [done|]. cbn [List.map List.filter].
  rewrite <- Hkx, IH. by destruct (fst kx =? z).
Qed.

(** [sort_by_key] keeps, among the items of one key, the order they came
    in. *)
Lemma sort_by_key_stable {X} (key : X -> outcome Z) (k : X -> Z) l sorted :
  Forall (fun x => key x = Returned (k x)) l ->
  sort_by_key key l = Returned sorted ->
  forall z, List.filter (fun x => k x =? z) sorted
            = List.filter (fun x => k x =? z) l.
Proof.
  intros Hkeys. unfold sort_by_key.
  rewrite (for_each_returned _ (fun x => (k x, x))).
  2:{ eapply Forall_impl; [exact Hkeys|]. by intros x ->. }
  intros [= <-] z.
  rewrite (filter_map_snd k).
  2:{ rewrite sort_keyed_perm. apply Forall_forall.
      by intros kx [x [<- _]]%list_elem_of_In%in_map_iff. }
  rewrite sort_keyed_filter. clear.
  induction l as [|x l IH]; [done|]. cbn [List.map List.filter fst].
  destruct (k x =? z); cbn [List.map snd]; by rewrite IH.
Qed.

(** Whether every result file of a folder has a run index. *)
Lemma all_or_one_bad {A} (entries : list (string * A)) :
  Forall (fun e => is_returned (run_index (fst e))) entries
  \/ exists e, e ∈ entries /\ ~ is_returned (run_index (fst e)).
Proof.
  induction entries as [|e entries [IH|(e' & Hin & Hbad)]].
  - left. constructor.
  - destruct (run_index (fst e)) as [k|err] eqn:Hk.
    + left. constructor; [simpl; by rewrite Hk|done].
    + right. exists e. split; [left|]. rewrite Hk. intros [].
  - right. exists e'. split; [by right|done].
Qed.

(** The outcomes of [load_experiment_results]. *)
Lemma load_cases {A} config_name experiment_folder base_folder
    (disk : gmap string (list (string * A))) :
  match load_experiment_results config_name experiment_folder base_folder disk
  with
  | Returned results =>
      exists entries,
        disk !! resolve_folder config_name experiment_folder base_folder
          = Some entries
        /\ Forall (fun e => is_returned (run_index (fst e)))
                  (result_files config_name entries)
        /\ List.length results = List.length (result_files config_name entries)
  | Raised (FileNotFoundError _) =>
      disk !! resolve_folder config_name experiment_folder base_folder = None
  | Raised (ValueError _) =>
      exists entries e,
        disk !! resolve_folder config_name experiment_folder base_folder
          = Some entries
        /\ e ∈ result_files config_name entries
        /\ ~ is_returned (run_index (fst e))
  | Raised _ => False
  end.
Proof.
  destruct (disk !! resolve_folder config_name experiment_folder base_folder)
    as [entries|] eqn:Hdisk.
  2:{ unfold load_experiment_results. by rewrite Hdisk. }
  destruct (all_or_one_bad (result_files config_name entries))
    as [Hall|(e & Hin & Hbad)].
  - destruct (load_sorted _ _ _ _ _ Hdisk Hall) as (sorted & -> & Hperm & _).
    exists entries. split; [done|]. split; [done|].
    by rewrite length_map, Hperm.
  - unfold load_experiment_results, sort_by_key. rewrite Hdisk.
    destruct (for_each_raised
                (fun x : string * A => k ← run_index (fst x); Returned (k, x))
                (List.filter (fun e => is_result_file config_name (fst e)) entries)
                e Hin)
      as (e' & err & _ & Herr & ->).
    { by destruct (run_index (fst e)). }
    destruct (run_index (fst e')) as [k|err'] eqn:Hk; [done|].
    simpl in Herr. injection Herr as <-.
    apply run_index_raised in Hk as [msg ->]. simpl. eauto.
Qed.

End SortFacts.

Section loader_properties.
Import Py Loader LoaderFacts Chars TextFacts SortFacts.

(** X11.  What [load_experiment_results] can do, and when.  It returns
    only if the folder exists and the name of every result file has a run
    index, and then it returns as many objects as there are result files;
    it raises [FileNotFoundError] only if the folder is missing;
    it raises [ValueError] only if the folder holds a result file whose
    name has no run index; it raises nothing else. *)
Theorem load_outcome {A} config_name experiment_folder base_folder
    (disk : gmap string (list (string * A))) :
  match load_experiment_results config_name experiment_folder base_folder disk
  with
  | Returned results =>
      exists entries,
        disk !! resolve_folder config_name experiment_folder base_folder
          = Some entries
        /\ Forall (fun e => is_returned (run_index (fst e)))
                  (result_files config_name entries)
        /\ List.length results = List.length (result_files config_name entries)
  | Raised (FileNotFoundError _) =>
      disk !! resolve_folder config_name experiment_folder base_folder = None
  | Raised (ValueError _) =>
      exists entries e,
        disk !! resolve_folder config_name experiment_folder base_folder
          = Some entries
        /\ e ∈ result_files config_name entries
        /\ ~ is_returned (run_index (fst e))
  | Raised _ => False
  end.
Proof. apply load_cases. Qed.

(** X12.  The result files come back in ascending order of run index,
    each once, and those of one run index in the order the folder lists
    them. *)
Theorem load_keeps_listing_order {A} config_name experiment_folder base_folder
    (disk : gmap string (list (string * A))) entries :
  disk !! resolve_folder config_name experiment_folder base_folder
    = Some entries ->
  Forall (fun e => is_returned (run_index (fst e)))
         (result_files config_name entries) ->
  exists sorted,
    load_experiment_results config_name experiment_folder base_folder disk
    = Returned (List.map snd sorted)
    /\ sorted ≡ₚ result_files config_name entries
    /\ StronglySorted index_le sorted
    /\ forall k, with_index k sorted
                 = with_index k (result_files config_name entries).
Proof.
  intros Hdisk Hkeys.
  assert (Forall (fun e : string * A =>
                    run_index (fst e) = Returned (index_of (fst e)))
                 (result_files config_name entries)) as Hkeys'.
  { eapply Forall_impl; [exact Hkeys|]. intros e. apply index_of_returned. }
  destruct (sort_by_key_returned _ _ _ Hkeys') as (sorted & Hsort & Hperm & Hsorted).
  exists sorted. unfold load_experiment_results. rewrite Hdisk.
  fold (result_files config_name entries). rewrite Hsort.
  split; [done|]. split; [done|]. split; [done|].
  intros k. unfold with_index.
  apply (sort_by_key_stable _ (fun e : string * A => index_of (fst e)) _ _
           Hkeys' Hsort).
Qed.

(** X13.  The index text of a file name is the text between its last
    underscore and the first dot after it. *)
Theorem index_text_between prefix segment rest :
  without "_" segment = true -> without "." segment = true ->
  without "_" rest = true ->
  index_text (prefix +:+ "_" +:+ segment +:+ "." +:+ rest) = segment.
Proof. apply index_text_parts. Qed.

(** X14.  A file named [<config_name>_<n>.pkl], with [n] printed as
    Python prints an integer, is a result file of the configuration and
    its run index is [n], for every integer and every configuration
    name. *)
Theorem run_file_round_trip config_name n :
  is_result_file config_name (config_name +:+ "_" +:+ Text.str_of_Z n +:+ ".pkl")
  = true
  /\ run_index (config_name +:+ "_" +:+ Text.str_of_Z n +:+ ".pkl") = Returned n.
Proof.
  split.
  - unfold is_result_file, startswith. apply andb_true_iff. split.
    + rewrite <- (append_assoc config_name "_"). apply prefix_app.
    + rewrite <- (append_assoc config_name "_"), <- append_assoc.
      apply endswith_app.
  - unfold run_index.
    change (config_name +:+ "_" +:+ Text.str_of_Z n +:+ ".pkl")
      with (config_name +:+ "_" +:+ Text.str_of_Z n +:+ "." +:+ "pkl").
    rewrite index_text_parts; [apply py_int_str| | |done];
      by apply str_of_Z_without.
Qed.

(** X15.  The result files of a configuration named [<name>_<suffix>]
    are result files of the configuration [<name>] as well: the test is
    on the prefix [<name>_] only. *)
Theorem result_file_of_shorter_name config_name suffix filename :
  is_result_file (config_name +:+ "_" +:+ suffix) filename = true ->
  is_result_file config_name filename = true.
Proof.
  unfold is_result_file, startswith.
  intros [Hpre Hsuf]%andb_true_iff. apply andb_true_iff. split; [|done].
  rewrite <- (append_assoc config_name "_"), append_assoc in Hpre.
  by apply prefix_app_l in Hpre.
Qed.

(** *** Runs on the sample data *)

(** X12 on a folder that lists [exp_1.pkl] before [exp_01.pkl]. *)
Lemma load_keeps_listing_order_witness :
  exists sorted,
    load_experiment_results "exp" None "monte_carlo" MoreSamples.tie_disk
    = Returned (List.map snd sorted)
    /\ sorted ≡ₚ result_files "exp" MoreSamples.tie_files
    /\ StronglySorted index_le sorted
    /\ forall k, with_index k sorted
                 = with_index k (result_files "exp" MoreSamples.tie_files).
Proof.
  apply (load_keeps_listing_order "exp" None "monte_carlo"
           MoreSamples.tie_disk MoreSamples.tie_files).
  - reflexivity.
  - repeat (apply List.Forall_cons; [exact I|]). apply List.Forall_nil.
Defined.

(** X13 for [my_exp_12.5.pkl]. *)
Lemma index_text_between_witness :
  index_text ("my_exp" +:+ "_" +:+ "12" +:+ "." +:+ "5.pkl") = "12".
Proof. apply (index_text_between "my_exp" "12" "5.pkl"); reflexivity. Defined.

(** X15 for [exp_v2_3.pkl], a result file of "exp_v2" and of "exp". *)
Lemma result_file_of_shorter_name_witness :
  is_result_file "exp" "exp_v2_3.pkl" = true.
Proof.
  apply (result_file_of_shorter_name "exp" "v2" "exp_v2_3.pkl"). reflexivity.
Defined.

End loader_properties.

(** ** More on the summary *)

Module SummaryCases.
Import Py Loader Summary LoaderFacts SummaryFacts.
Local Open Scope R_scope.

Ltac empty_series :=
  split; [done|]; intros Hall;
  repeat (apply Forall_cons in Hall as [? Hall]); done.

(** [final_values_of] raises nothing but the [IndexError] of an empty
    series, and returns only for a complete experiment. *)
Lemma final_values_of_outcome exp :
  match final_values_of exp with
  | Returned _ => complete exp
  | Raised e => e = IndexError "list index out of range" /\ ~ complete exp
  end.
Proof.
  destruct exp as [s1 s2 s3 s4 s5 s6 s7 s8 s9 s10 s11 s12].
  unfold final_values_of, complete, metric_series. cbn [C_low C_high xeno_used
    waitlist_deaths_low waitlist_deaths_high post_tx_deaths_low
    post_tx_deaths_high total_deaths H_low H_high_std H_high_xeno times].
  assert (forall s : list R, s = [] \/ exists x rest, s = x :: rest) as Hcases.
  { intros [|x rest]; eauto. }
  destruct (Hcases s1) as [->|(? & ? & ->)]; [empty_series|].
  destruct (Hcases s2) as [->|(? & ? & ->)]; [empty_series|].
  destruct (Hcases s4) as [->|(? & ? & ->)]; [empty_series|].
  destruct (Hcases s5) as [->|(? & ? & ->)]; [empty_series|].
  destruct (Hcases s6) as [->|(? & ? & ->)]; [empty_series|].
  destruct (Hcases s7) as [->|(? & ? & ->)]; [empty_series|].
  destruct (Hcases s8) as [->|(? & ? & ->)]; [empty_series|].
  destruct (Hcases s3) as [->|(? & ? & ->)]; [empty_series|].
  destruct (Hcases s9) as [->|(? & ? & ->)]; [empty_series|].
  destruct (Hcases s10) as [->|(? & ? & ->)]; [empty_series|].
  destruct (Hcases s11) as [->|(? & ? & ->)]; [empty_series|].
  destruct (Hcases s12) as [->|(? & ? & ->)]; [empty_series|].
  repeat constructor; discriminate.
Qed.

(** Whether every experiment is complete. *)
Lemma complete_or_not exps :
  Forall complete exps \/ exists exp, exp ∈ exps /\ ~ complete exp.
Proof.
  induction exps as [|e exps [IH|(e' & Hin & Hbad)]].
  - left. constructor.
  - pose proof (final_values_of_outcome e) as He.
    destruct (final_values_of e).
    + left. by constructor.
    + right. exists e. split; [left|apply He].
  - right. exists e'. split; [by right|done].
Qed.

(** Experiments one of which has an empty series. *)
Lemma summarise_incomplete exps exp :
  exp ∈ exps -> ~ complete exp ->
  summarise exps = Raised (IndexError "list index out of range").
Proof.
  intros Hin Hbad. unfold summarise.
  destruct exps as [|e0 exps0]; [by apply elem_of_nil in Hin|].
  destruct (for_each_raised final_values_of (e0 :: exps0) exp Hin)
    as (e' & err & _ & Herr & ->).
  { pose proof (final_values_of_outcome exp) as He.
    destruct (final_values_of exp); [by intros _; apply Hbad|by intros []]. }
  pose proof (final_values_of_outcome e') as He'. rewrite Herr in He'.
  by destruct He' as [-> _].
Qed.

Lemma load_two_runs {A} (a b : A) :
  load_experiment_results "exp" None "monte_carlo"
    ({[ "monte_carlo/exp" := [("exp_0.pkl", a); ("exp_1.pkl", b)] ]}
       : gmap string (list (string * A)))
  = Returned [a; b].
Proof. vm_compute. reflexivity. Qed.

Lemma run_without_times_incomplete : ~ complete MoreSamples.run_without_times.
Proof.
  unfold complete. simpl. intros Hall.
  repeat (apply Forall_cons in Hall as [? Hall]). done.
Qed.

End SummaryCases.

Section summary_properties.
Import Py Loader Summary LoaderFacts SummaryFacts StatisticsFacts SortFacts
  SummaryCases.
Local Open Scope R_scope.

(** X16.  When one of the loaded experiments has an empty series,
    [get_experiment_summary] raises the [IndexError] of [series[-1]],
    whatever the other experiments are. *)
Theorem summary_raises_index_error config_name experiment_folder base_folder
    disk exps exp :
  load_experiment_results config_name experiment_folder base_folder disk
    = Returned exps ->
  exp ∈ exps -> ~ complete exp ->
  get_experiment_summary config_name experiment_folder base_folder disk
  = Raised (IndexError "list index out of range").
Proof.
  intros Hload Hin Hbad. unfold get_experiment_summary. rewrite Hload.
  cbn [mbind outcome_bind bind]. by eapply summarise_incomplete.
Qed.

(** X17.  What [get_experiment_summary] can do, and when.  It returns
    only if the experiments load and each has a last item in each series,
    and then it returns the empty dict for no experiment and the twelve
    statistics and the count otherwise; it raises [FileNotFoundError]
    only for a missing folder, [ValueError] only for a result file
    without run index, [IndexError] only for an experiment with an empty
    series; it never raises [KeyError] nor [ZeroDivisionError]. *)
Theorem summary_outcome config_name experiment_folder base_folder disk :
  match get_experiment_summary config_name experiment_folder base_folder disk
  with
  | Returned summary =>
      exists exps,
        load_experiment_results config_name experiment_folder base_folder disk
          = Returned exps
        /\ Forall complete exps
        /\ summary = match exps with
                     | [] => []
                     | exp :: rest => summary_of exp rest
                     end
  | Raised (FileNotFoundError _) =>
      disk !! resolve_folder config_name experiment_folder base_folder = None
  | Raised (ValueError _) =>
      exists entries e,
        disk !! resolve_folder config_name experiment_folder base_folder
          = Some entries
        /\ e ∈ result_files config_name entries
        /\ ~ is_returned (run_index (fst e))
  | Raised (IndexError _) =>
      exists exps exp,
        load_experiment_results config_name experiment_folder base_folder disk
          = Returned exps
        /\ exp ∈ exps /\ ~ complete exp
  | Raised (KeyError _) | Raised (ZeroDivisionError _) => False
  end.
Proof.
  pose proof (load_cases config_name experiment_folder base_folder disk) as Hload.
  unfold get_experiment_summary.
  destruct (load_experiment_results config_name experiment_folder base_folder disk)
    as [exps|err] eqn:Hl.
  2:{ cbn [mbind outcome_bind bind]. by destruct err. }
  cbn [mbind outcome_bind bind]. clear Hload.
  destruct (complete_or_not exps) as [Hall|(exp & Hin & Hbad)].
  - destruct exps as [|exp rest].
    + unfold summarise. by exists [].
    + rewrite (summarise_complete _ _ Hall). by exists (exp :: rest).
  - rewrite (summarise_incomplete _ _ Hin Hbad). eauto.
Qed.

(** X18.  The statistics of a metric: [min] and [max] are among the
    values, every value lies between them, [std] is not negative, and
    [values] are the values as given. *)
Theorem stats_of_bounds values st :
  stats_of values = Returned st ->
  Summary.values st = values
  /\ In (min st) values /\ In (max st) values
  /\ (forall v, In v values -> min st <= v <= max st)
  /\ 0 <= std st.
Proof.
  unfold stats_of. destruct values as [|x rest]; [done|]. intros [= <-].
  unfold statistics. cbn [Summary.values min max std].
  destruct (py_min_spec x rest) as [Hmin_in Hmin].
  destruct (py_max_spec x rest) as [Hmax_in Hmax].
  split; [done|]. split; [done|]. split; [done|]. split.
  - intros v Hv. split; [by apply Hmin|by apply Hmax].
  - apply sqrt_pos.
Qed.

(** X19.  With one experiment, each metric has its final value as mean,
    minimum and maximum, the standard deviation 0, and that one value as
    values; [num_experiments] is 1. *)
Theorem summary_of_one_experiment config_name experiment_folder base_folder
    disk exp :
  load_experiment_results config_name experiment_folder base_folder disk
    = Returned [exp] ->
  complete exp ->
  exists summary,
    get_experiment_summary config_name experiment_folder base_folder disk
    = Returned summary
    /\ (forall key, key ∈ metric_names ->
          dict_get key summary
          = Returned (Metric {| mean := value_of key (finals exp);
                                std := 0;
                                min := value_of key (finals exp);
                                max := value_of key (finals exp);
                                values := [value_of key (finals exp)] |}))
    /\ dict_get "num_experiments" summary = Returned (Count 1).
Proof.
  intros Hload Hexp. exists (summary_of exp []).
  unfold get_experiment_summary. rewrite Hload. cbn [mbind outcome_bind bind].
  split; [apply summarise_complete; constructor; [done|constructor]|].
  split; [|done].
  intros key Hkey. rewrite (summary_of_metric _ _ _ Hkey). do 2 f_equal.
  unfold column_stats, statistics, py_sum, py_min, py_max. simpl.
  f_equal.
  - lra.
  - replace ((value_of key (finals exp) - (0 + value_of key (finals exp)) / 1)
             * ((value_of key (finals exp)
                 - (0 + value_of key (finals exp)) / 1) * 1))
      with 0 by lra.
    replace ((0 + 0) / 1) with 0 by lra. apply sqrt_0.
Qed.

(** X20.  A summary that is returned counts the result files of the
    folder: it is empty when there is none, and otherwise
    [num_experiments] is their number and each metric has that many
    values. *)
Theorem summary_counts_result_files config_name experiment_folder base_folder
    disk entries summary :
  disk !! resolve_folder config_name experiment_folder base_folder
    = Some entries ->
  get_experiment_summary config_name experiment_folder base_folder disk
    = Returned summary ->
  (result_files config_name entries = [] /\ summary = [])
  \/ (result_files config_name entries <> []
      /\ dict_get "num_experiments" summary
         = Returned (Count (List.length (result_files config_name entries)))
      /\ forall key, key ∈ metric_names ->
           exists st,
             dict_get key summary = Returned (Metric st)
             /\ List.length (Summary.values st)
                = List.length (result_files config_name entries)).
Proof.
  intros Hdisk Hsum.
  pose proof (load_cases config_name experiment_folder base_folder disk) as Hload.
  unfold get_experiment_summary in Hsum.
  destruct (load_experiment_results config_name experiment_folder base_folder disk)
    as [exps|err] eqn:Hl; [|done].
  cbn [mbind outcome_bind bind] in Hsum.
  destruct Hload as (entries' & Hdisk' & _ & Hlen).
  rewrite Hdisk in Hdisk'. injection Hdisk' as <-.
  destruct exps as [|exp rest].
  - left. split; [|by injection Hsum as <-].
    by destruct (result_files config_name entries).
  - right. split; [by destruct (result_files config_name entries)|].
    destruct (complete_or_not (exp :: rest)) as [Hall|(e & Hin & Hbad)].
    2:{ by rewrite (summarise_incomplete _ _ Hin Hbad) in Hsum. }
    rewrite (summarise_complete _ _ Hall) in Hsum. injection Hsum as <-.
    rewrite <- Hlen. split; [done|].
    intros key Hkey. eexists. split; [by apply summary_of_metric|].
    unfold column_stats, statistics. cbn [Summary.values].
    simpl. by rewrite length_map.
Qed.

(** *** Runs on the sample data *)

(** X16 on a folder whose second run has an empty time axis. *)
Lemma summary_raises_index_error_witness :
  get_experiment_summary "exp" None "monte_carlo" MoreSamples.broken_run
  = Raised (IndexError "list index out of range").
Proof.
  apply (summary_raises_index_error "exp" None "monte_carlo"
           MoreSamples.broken_run
           [Samples.run_with 10; MoreSamples.run_without_times]
           MoreSamples.run_without_times).
  - apply load_two_runs.
  - right. left.
  - apply run_without_times_incomplete.
Defined.

(** X18 for the values 2, 1, 3. *)
Lemma stats_of_bounds_witness :
  Summary.values (statistics 2 [1; 3]) = [2; 1; 3]
  /\ In (min (statistics 2 [1; 3])) [2; 1; 3]
  /\ In (max (statistics 2 [1; 3])) [2; 1; 3]
  /\ (forall v, In v [2; 1; 3] ->
        min (statistics 2 [1; 3]) <= v <= max (statistics 2 [1; 3]))
  /\ 0 <= std (statistics 2 [1; 3]).
Proof. apply (stats_of_bounds [2; 1; 3] (statistics 2 [1; 3])). reflexivity. Defined.

(** X19 on the folder with one run. *)
Lemma summary_of_one_experiment_witness :
  exists summary,
    get_experiment_summary "exp" None "monte_carlo" Samples.one_run
    = Returned summary
    /\ (forall key, key ∈ metric_names ->
          dict_get key summary
          = Returned
              (Metric {| mean := value_of key (finals (Samples.run_with 10));
                         std := 0;
                         min := value_of key (finals (Samples.run_with 10));
                         max := value_of key (finals (Samples.run_with 10));
                         values :=
                           [value_of key (finals (Samples.run_with 10))] |}))
    /\ dict_get "num_experiments" summary = Returned (Count 1).
Proof.
  apply (summary_of_one_experiment "exp" None "monte_carlo" Samples.one_run
           (Samples.run_with 10)).
  - apply load_one_run.
  - apply run_with_complete.
Defined.

(** X20 on the folder with the three sample runs. *)
Lemma summary_counts_result_files_witness :
  dict_get "num_experiments" (summary_of (Samples.run_with 10)
                                [Samples.run_with 20; Samples.run_with 30])
  = Returned (Count 3).
Proof.
  destruct (summary_counts_result_files "exp" None "monte_carlo"
              Samples.three_runs
              [("exp_0.pkl", Samples.run_with 10);
               ("exp_1.pkl", Samples.run_with 20);
               ("exp_2.pkl", Samples.run_with 30)]
              (summary_of (Samples.run_with 10)
                 [Samples.run_with 20; Samples.run_with 30]))
    as [[Hnone _]|(_ & Hcount & _)].
  - reflexivity.
  - unfold get_experiment_summary, Samples.three_runs. rewrite load_three_runs.
    apply summarise_complete.
    repeat (constructor; [apply run_with_complete|]). constructor.
  - discriminate Hnone.
  - exact Hcount.
Defined.

End summary_properties.
